(** * A shallow embedding of the website cloner backend (backend/app/main.py)

    The development follows the layers of the Python module:

    - [Py]     : the fragment of the Python runtime the module relies on
                 (text and byte strings, JSON-shaped values, exceptions,
                 truthiness, subscripting, [dict.get], [len], [str.join]);
    - [Codec]  : [bytes.decode("utf-8")] and [base64.b64encode];
    - [Json]   : [json.loads];
    - [Http]   : the [requests] calls, answered by an explicit [World],
                 with a log of the requests that were sent;
    - [Main]   : the functions of main.py, one definition per function.

    Generators are modelled by their resumptions ([Py.gen]): a generator
    either yields a value and continues, returns, or raises. *)

From Stdlib Require Import String Ascii List ZArith NArith Bool Lia.
Import ListNotations.

Set Warnings "-register-all".

(* ===================================================================== *)
(** ** The Python fragment                                                *)
(* ===================================================================== *)

Module Py.

Local Open Scope N_scope.

(** A Python [str] is a sequence of Unicode code points; a [bytes] object is
    a Rocq [string], whose characters are exactly the 256 byte values. *)
Definition str := list N.
Definition bytes := string.

(** Text literals of the source: every character of an ASCII literal is its
    own code point. *)
Definition py (s : string) : str := map N_of_ascii (list_ascii_of_string s).

Definition byte_values (b : bytes) : list N :=
  map N_of_ascii (list_ascii_of_string b).

(** The characters that cannot be written inside a literal here. *)
Definition NL : N := 10.
Definition DQUOTE : N := 34.

Fixpoint str_eqb (a b : str) : bool :=
  match a, b with
  | [], [] => true
  | x :: a', y :: b' => (x =? y) && str_eqb a' b'
  | _, _ => false
  end.

(** [s.startswith(p)] *)
Fixpoint startswith (s p : str) : bool :=
  match p, s with
  | [], _ => true
  | y :: p', x :: s' => (x =? y) && startswith s' p'
  | _ :: _, [] => false
  end.

(** [p in s] for two strings: [p] occurs as a contiguous run of [s]. *)
Fixpoint str_contains (s p : str) : bool :=
  startswith s p || match s with [] => false | _ :: s' => str_contains s' p end.

(** [str.isspace] for one character, the set [str.strip()] removes. *)
Definition isspace (c : N) : bool :=
  ((9 <=? c) && (c <=? 13)) || ((28 <=? c) && (c <=? 32))
  || (c =? 133) || (c =? 160) || (c =? 5760)
  || ((8192 <=? c) && (c <=? 8202))
  || (c =? 8232) || (c =? 8233) || (c =? 8239) || (c =? 8287) || (c =? 12288).

Fixpoint lstrip (s : str) : str :=
  match s with
  | c :: r => if isspace c then lstrip r else s
  | [] => []
  end.

(** [s.strip()] *)
Definition strip (s : str) : str := rev (lstrip (rev (lstrip s))).

(** [sep.join(parts)] on strings. *)
Fixpoint join (sep : str) (parts : list str) : str :=
  match parts with
  | [] => []
  | [p] => p
  | p :: rest => p ++ sep ++ join sep rest
  end.

(** Python floats occur only as JSON numbers and as two constants of the
    request payload.  A float is recorded by the decimal literal that denotes
    it ([mantissa * 10 ^ exponent], with its sign), or as one of the three
    special values; the binary64 value is the nearest double. *)
Inductive pyfloat :=
| FDec (negative : bool) (mantissa : N) (exponent : Z)
| FInf (negative : bool)
| FNaN.

(** JSON-shaped Python values.  A [dict] keeps its insertion order; all the
    dictionaries of the program have string keys. *)
Inductive value :=
| VNone
| VBool (b : bool)
| VInt (z : Z)
| VFloat (f : pyfloat)
| VStr (s : str)
| VList (l : list value)
| VDict (d : list (str * value)).

Definition dict := list (str * value).

(** The exceptions that can occur in the module. *)
Inductive exn :=
| KeyError (key : value)
| IndexError
| TypeError
| AttributeError
| UnicodeDecodeError
| JSONDecodeError
| RequestException (msg : str)      (* requests: transport failure *)
| HTTPError (status : Z)            (* requests: raise_for_status *)
| HTTPException (status_code : Z) (detail : str).  (* fastapi *)

Inductive result (A : Type) :=
| Ok (a : A)
| Raise (e : exn).
Arguments Ok {A} a.
Arguments Raise {A} e.

Definition rbind {A B} (m : result A) (k : A -> result B) : result B :=
  match m with
  | Ok a => k a
  | Raise e => Raise e
  end.

(** A generator, by its resumptions. *)
Inductive gen :=
| Yield (v : value) (k : gen)
| Return
| Throw (e : exn).

(** What a consumer that drives the generator to its end receives. *)
Fixpoint yields (g : gen) : list value :=
  match g with
  | Yield v k => v :: yields k
  | Return | Throw _ => []
  end.

Fixpoint outcome (g : gen) : option exn :=
  match g with
  | Yield _ k => outcome k
  | Return => None
  | Throw e => Some e
  end.

(** Sequencing inside a generator body: run [g], and when it returns go on
    with [h]. *)
Fixpoint gen_then (g h : gen) : gen :=
  match g with
  | Yield v k => Yield v (gen_then k h)
  | Return => h
  | Throw e => Throw e
  end.

(** *** Dictionaries *)

Fixpoint dict_get (d : list (str * value)) (k : str) : option value :=
  match d with
  | [] => None
  | (k', v) :: d' => if str_eqb k' k then Some v else dict_get d' k
  end.

(** [d[k] = v]: an existing key keeps its place, a new key goes last. *)
Fixpoint dict_set (d : list (str * value)) (k : str) (v : value)
  : list (str * value) :=
  match d with
  | [] => [(k, v)]
  | (k', v') :: d' =>
      if str_eqb k' k then (k', v) :: d' else (k', v') :: dict_set d' k v
  end.

Definition keys (d : list (str * value)) : list str := map fst d.
Definition values (d : list (str * value)) : list value := map snd d.

(** *** Operations on values *)

(** Exact power of ten, for the underflow test below. *)
Definition pow10 (n : Z) : Z := Z.pow 10 n.

(** [bool(f)] for a float: false exactly for the two zeros.  A non-zero
    literal denotes zero when it rounds to it, that is when it is at most
    [2^-1075], half of the smallest positive double. *)
Definition float_truthy (f : pyfloat) : bool :=
  match f with
  | FInf _ | FNaN => true
  | FDec _ m e =>
      if m =? 0 then false
      else if (0 <=? e)%Z then true
      else negb (Z.of_N m * Z.pow 2 1075 <=? pow10 (- e))%Z
  end.

(** [bool(v)] *)
Definition truthy (v : value) : bool :=
  match v with
  | VNone => false
  | VBool b => b
  | VInt z => negb (z =? 0)%Z
  | VFloat f => float_truthy f
  | VStr s => match s with [] => false | _ => true end
  | VList l => match l with [] => false | _ => true end
  | VDict d => match d with [] => false | _ => true end
  end.

(** [any(xs)] *)
Definition any (xs : list value) : bool := existsb truthy xs.

(** [seq[i]] for a list or a string, with Python's negative indices. *)
Definition index {A} (l : list A) (i : Z) : option A :=
  let n := Z.of_nat (length l) in
  if ((0 <=? i) && (i <? n))%Z then nth_error l (Z.to_nat i)
  else if ((- n <=? i) && (i <? 0))%Z then nth_error l (Z.to_nat (n + i))
  else None.

(** [v[k]] *)
Definition subscript (v k : value) : result value :=
  match v with
  | VDict d =>
      match k with
      | VStr s => match dict_get d s with
                  | Some x => Ok x
                  | None => Raise (KeyError k)
                  end
      | VList _ | VDict _ => Raise TypeError          (* unhashable key *)
      | _ => Raise (KeyError k)                       (* no such key *)
      end
  | VList l =>
      match k with
      | VInt i => match index l i with
                  | Some x => Ok x
                  | None => Raise IndexError
                  end
      | VBool b => match index l (if b then 1 else 0)%Z with
                   | Some x => Ok x
                   | None => Raise IndexError
                   end
      | _ => Raise TypeError
      end
  | VStr s =>
      match k with
      | VInt i => match index s i with
                  | Some c => Ok (VStr [c])
                  | None => Raise IndexError
                  end
      | VBool b => match index s (if b then 1 else 0)%Z with
                   | Some c => Ok (VStr [c])
                   | None => Raise IndexError
                   end
      | _ => Raise TypeError
      end
  | VNone | VBool _ | VInt _ | VFloat _ => Raise TypeError
  end.

(** [v.get(k, default)] : only dictionaries have the method. *)
Definition get (v : value) (k : str) (default : value) : result value :=
  match v with
  | VDict d => Ok (match dict_get d k with Some x => x | None => default end)
  | _ => Raise AttributeError
  end.

(** [len(v)] *)
Definition len (v : value) : result Z :=
  match v with
  | VStr s => Ok (Z.of_nat (length s))
  | VList l => Ok (Z.of_nat (length l))
  | VDict d => Ok (Z.of_nat (length d))
  | VNone | VBool _ | VInt _ | VFloat _ => Raise TypeError
  end.

(** [v == s] for a string literal [s]. *)
Definition eq_str (v : value) (s : str) : bool :=
  match v with
  | VStr t => str_eqb t s
  | _ => false
  end.

(** [s in v] for a string literal [s]. *)
Definition contains (v : value) (s : str) : result bool :=
  match v with
  | VDict d => Ok (existsb (fun k => str_eqb k s) (keys d))
  | VList l => Ok (existsb (fun x => eq_str x s) l)
  | VStr t => Ok (str_contains t s)
  | VNone | VBool _ | VInt _ | VFloat _ => Raise TypeError
  end.

(** The items a [for] loop over [v] visits. *)
Definition iter (v : value) : result (list value) :=
  match v with
  | VList l => Ok l
  | VDict d => Ok (map VStr (keys d))
  | VStr s => Ok (map (fun c => VStr [c]) s)
  | VNone | VBool _ | VInt _ | VFloat _ => Raise TypeError
  end.

(** [sep.join(parts)] on values: every part has to be a string. *)
Fixpoint strings_of (parts : list value) : result (list str) :=
  match parts with
  | [] => Ok []
  | VStr s :: rest => rbind (strings_of rest) (fun ss => Ok (s :: ss))
  | _ :: _ => Raise TypeError
  end.

Definition join_values (sep : str) (parts : list value) : result str :=
  rbind (strings_of parts) (fun ss => Ok (join sep ss)).

End Py.

(* ===================================================================== *)
(** ** Byte and text codecs                                               *)
(* ===================================================================== *)

Module Codec.

Import Py.
Local Open Scope N_scope.

Definition is_cont (b : N) : bool := (128 <=? b) && (b <=? 191).

(** Strict UTF-8: shortest form only, no surrogates, nothing above
    U+10FFFF.  [None] stands for [UnicodeDecodeError]. *)
Fixpoint utf8_decode (bs : list N) : option str :=
  match bs with
  | [] => Some []
  | b0 :: r0 =>
      if b0 <? 128 then option_map (cons b0) (utf8_decode r0)
      else if (194 <=? b0) && (b0 <=? 223) then
        match r0 with
        | b1 :: r1 =>
            if is_cont b1
            then option_map (cons ((b0 - 192) * 64 + (b1 - 128)))
                            (utf8_decode r1)
            else None
        | [] => None
        end
      else if (224 <=? b0) && (b0 <=? 239) then
        match r0 with
        | b1 :: b2 :: r2 =>
            let cp := (b0 - 224) * 4096 + (b1 - 128) * 64 + (b2 - 128) in
            if is_cont b1 && is_cont b2 && (2048 <=? cp)
               && negb ((55296 <=? cp) && (cp <=? 57343))
            then option_map (cons cp) (utf8_decode r2)
            else None
        | _ => None
        end
      else if (240 <=? b0) && (b0 <=? 244) then
        match r0 with
        | b1 :: b2 :: b3 :: r3 =>
            let cp := (b0 - 240) * 262144 + (b1 - 128) * 4096
                      + (b2 - 128) * 64 + (b3 - 128) in
            if is_cont b1 && is_cont b2 && is_cont b3
               && (65536 <=? cp) && (cp <=? 1114111)
            then option_map (cons cp) (utf8_decode r3)
            else None
        | _ => None
        end
      else None
  end.

(** [raw.decode("utf-8")] *)
Definition decode (raw : bytes) : result str :=
  match utf8_decode (byte_values raw) with
  | Some s => Ok s
  | None => Raise UnicodeDecodeError
  end.

(** The base64 alphabet: A-Z, a-z, 0-9, [+], [/]. *)
Definition b64_char (n : N) : N :=
  if n <? 26 then 65 + n
  else if n <? 52 then 97 + (n - 26)
  else if n <? 62 then 48 + (n - 52)
  else if n =? 62 then 43
  else 47.

Definition PAD : N := 61.

Fixpoint b64 (bs : list N) : str :=
  match bs with
  | [] => []
  | [a] =>
      [b64_char (N.shiftr a 2); b64_char (N.shiftl (N.land a 3) 4); PAD; PAD]
  | [a; b] =>
      [b64_char (N.shiftr a 2);
       b64_char (N.lor (N.shiftl (N.land a 3) 4) (N.shiftr b 4));
       b64_char (N.shiftl (N.land b 15) 2); PAD]
  | a :: b :: c :: rest =>
      b64_char (N.shiftr a 2)
      :: b64_char (N.lor (N.shiftl (N.land a 3) 4) (N.shiftr b 4))
      :: b64_char (N.lor (N.shiftl (N.land b 15) 2) (N.shiftr c 6))
      :: b64_char (N.land c 63)
      :: b64 rest
  end.

(** [base64.b64encode(data).decode()] : the encoding is ASCII, so decoding
    it cannot fail. *)
Definition b64encode (data : bytes) : str := b64 (byte_values data).

End Codec.


(* ===================================================================== *)
(** ** json.loads                                                         *)
(* ===================================================================== *)

Module Json.

Import Py.
Local Open Scope N_scope.

(** JSON whitespace: space, tab, line feed, carriage return. *)
Definition json_ws (c : N) : bool :=
  (c =? 32) || (c =? 9) || (c =? 10) || (c =? 13).

Fixpoint skip_ws (s : str) : str :=
  match s with
  | c :: r => if json_ws c then skip_ws r else s
  | [] => []
  end.

Definition is_digit (c : N) : bool := (48 <=? c) && (c <=? 57).

(** The longest run of ASCII digits at the head of [s], as digit values. *)
Fixpoint take_digits (s : str) : list N * str :=
  match s with
  | c :: r =>
      if is_digit c
      then let (ds, r') := take_digits r in (c - 48 :: ds, r')
      else ([], s)
  | [] => ([], [])
  end.

Definition digits_value (ds : list N) : N :=
  fold_left (fun acc d => 10 * acc + d) ds 0.

(** A number: an optional minus sign, then a single zero or a run of
    digits that starts with a non-zero digit, then optionally a dot with at
    least one digit, then optionally an exponent mark with an optional sign
    and at least one digit.  Without fraction and exponent the number is an
    [int], otherwise a [float]. *)
Definition scan_number (s : str) : option (value * str) :=
  let (neg, s1) := match s with
                   | 45 :: r => (true, r)
                   | _ => (false, s)
                   end in
  match s1 with
  | c :: r =>
      if is_digit c then
        let (ipart, s2) := if c =? 48 then ([0], r) else take_digits s1 in
        let (frac, s3) :=
          match s2 with
          | 46 :: r2 =>
              match take_digits r2 with
              | ([], _) => ([], s2)
              | (fs, r3) => (fs, r3)
              end
          | _ => ([], s2)
          end in
        let (ex, s4) :=
          match s3 with
          | e :: r3 =>
              if (e =? 101) || (e =? 69) then
                let (eneg, r4) := match r3 with
                                  | 43 :: q => (false, q)
                                  | 45 :: q => (true, q)
                                  | _ => (false, r3)
                                  end in
                match take_digits r4 with
                | ([], _) => (None, s3)
                | (es, r5) =>
                    let n := Z.of_N (digits_value es) in
                    (Some (if eneg then (- n)%Z else n), r5)
                end
              else (None, s3)
          | [] => (None, s3)
          end in
        match frac, ex with
        | [], None =>
            let n := Z.of_N (digits_value ipart) in
            Some (VInt (if neg then (- n)%Z else n), s4)
        | _, _ =>
            let e := match ex with Some e => e | None => 0%Z end in
            Some (VFloat (FDec neg (digits_value (ipart ++ frac))
                               (e - Z.of_nat (length frac))%Z), s4)
        end
      else None
  | [] => None
  end.

Definition hex_val (c : N) : option N :=
  if is_digit c then Some (c - 48)
  else if (97 <=? c) && (c <=? 102) then Some (c - 87)
  else if (65 <=? c) && (c <=? 70) then Some (c - 55)
  else None.

(** The four hexadecimal digits after a backslash-u. *)
Definition hex4 (s : str) : option (N * str) :=
  match s with
  | a :: b :: c :: d :: r =>
      match hex_val a, hex_val b, hex_val c, hex_val d with
      | Some a, Some b, Some c, Some d =>
          Some (((a * 16 + b) * 16 + c) * 16 + d, r)
      | _, _, _, _ => None
      end
  | _ => None
  end.

(** The body of a string, after its opening quote, up to and including the
    closing quote.  Control characters are refused; an escaped high
    surrogate followed by an escaped low surrogate is one character. *)
Fixpoint scan_string (fuel : nat) (s : str) (acc : str) : option (str * str) :=
  match fuel with
  | O => None
  | S fuel =>
      match s with
      | [] => None
      | c :: r =>
          if c =? 34 then Some (rev acc, r)
          else if c <? 32 then None
          else if c =? 92 then
            match r with
            | [] => None
            | e :: r' =>
                if e =? 117 then
                  match hex4 r' with
                  | None => None
                  | Some (u, r2) =>
                      let lone := scan_string fuel r2 (u :: acc) in
                      if (55296 <=? u) && (u <=? 56319) then
                        match r2 with
                        | 92 :: 117 :: r3 =>
                            match hex4 r3 with
                            | Some (u2, r4) =>
                                if (56320 <=? u2) && (u2 <=? 57343)
                                then scan_string fuel r4
                                       (65536 + (u - 55296) * 1024
                                        + (u2 - 56320) :: acc)
                                else lone
                            | None => lone
                            end
                        | _ => lone
                        end
                      else lone
                  end
                else
                  let plain x := scan_string fuel r' (x :: acc) in
                  if e =? 34 then plain 34
                  else if e =? 92 then plain 92
                  else if e =? 47 then plain 47
                  else if e =? 98 then plain 8
                  else if e =? 102 then plain 12
                  else if e =? 110 then plain 10
                  else if e =? 114 then plain 13
                  else if e =? 116 then plain 9
                  else None
            end
          else scan_string fuel r (c :: acc)
      end
  end.

(** One JSON value at the head of [s] (no leading whitespace), and what
    follows it.  Besides the JSON grammar the decoder accepts the three
    constants [NaN], [Infinity] and [-Infinity]. *)
Fixpoint scan_once (fuel : nat) (s : str) : option (value * str) :=
  match fuel with
  | O => None
  | S fuel =>
      match s with
      | [] => None
      | c :: r =>
          if c =? 34 then
            match scan_string (S (length r)) r [] with
            | Some (x, r') => Some (VStr x, r')
            | None => None
            end
          else if c =? 123 then
            match skip_ws r with
            | 125 :: r' => Some (VDict [], r')
            | r' => scan_members fuel r' []
            end
          else if c =? 91 then
            match skip_ws r with
            | 93 :: r' => Some (VList [], r')
            | r' => scan_elements fuel r' []
            end
          else if startswith s (py "null") then Some (VNone, skipn 4 s)
          else if startswith s (py "true") then Some (VBool true, skipn 4 s)
          else if startswith s (py "false") then Some (VBool false, skipn 5 s)
          else if startswith s (py "NaN") then Some (VFloat FNaN, skipn 3 s)
          else if startswith s (py "Infinity")
          then Some (VFloat (FInf false), skipn 8 s)
          else if startswith s (py "-Infinity")
          then Some (VFloat (FInf true), skipn 9 s)
          else scan_number s
      end
  end

(** The elements of an array, after the opening bracket or a comma. *)
with scan_elements (fuel : nat) (s : str) (acc : list value)
  : option (value * str) :=
  match fuel with
  | O => None
  | S fuel =>
      match scan_once fuel s with
      | None => None
      | Some (v, r) =>
          match skip_ws r with
          | 44 :: r' => scan_elements fuel (skip_ws r') (v :: acc)
          | 93 :: r' => Some (VList (rev (v :: acc)), r')
          | _ => None
          end
      end
  end

(** The members of an object, after the opening brace or a comma.  A
    repeated key keeps its first place and takes the last value. *)
with scan_members (fuel : nat) (s : str) (acc : list (str * value))
  : option (value * str) :=
  match fuel with
  | O => None
  | S fuel =>
      match s with
      | 34 :: r =>
          match scan_string (S (length r)) r [] with
          | None => None
          | Some (k, r1) =>
              match skip_ws r1 with
              | 58 :: r2 =>
                  match scan_once fuel (skip_ws r2) with
                  | None => None
                  | Some (v, r3) =>
                      let acc' := dict_set acc k v in
                      match skip_ws r3 with
                      | 44 :: r4 => scan_members fuel (skip_ws r4) acc'
                      | 125 :: r4 => Some (VDict acc', r4)
                      | _ => None
                      end
                  end
              | _ => None
              end
          end
      | _ => None
      end
  end.

(** [json.loads(s)]: one value, with whitespace around it and nothing else;
    a leading byte-order mark is refused. *)
Definition json_loads (s : str) : result value :=
  match s with
  | 65279 :: _ => Raise JSONDecodeError
  | _ =>
      match scan_once (S (length s)) (skip_ws s) with
      | Some (v, r) =>
          match skip_ws r with
          | [] => Ok v
          | _ :: _ => Raise JSONDecodeError
          end
      | None => Raise JSONDecodeError
      end
  end.

End Json.

(* ===================================================================== *)
(** ** The outside world: requests                                        *)
(* ===================================================================== *)

Module Http.

Import Py.

(** The arguments of one [requests.post] call. *)
Record Request := {
  req_url : str;
  req_headers : list (str * str);
  req_json : value;
  req_timeout : option Z;
  req_stream : bool
}.

(** What the program reads from a [requests.Response]. *)
Record Response := {
  status_code : Z;
  content : bytes;            (* resp.content *)
  text : str;                 (* resp.text *)
  json : result value;        (* resp.json() *)
  iter_lines : list bytes;    (* the items of resp.iter_lines() *)
  iter_lines_end : option exn (* the exception that ends iter_lines(), when
                                 the connection breaks instead of closing *)
}.

(** Everything the module does not decide itself: the two secrets of the
    environment (the module refuses to load without them), the answer to
    every request, and how the runtime prints exceptions and the values that
    are not strings.  The answer is a function of the request: one run of
    the pipeline never sends the same request twice. *)
Record World := {
  NVIDIA_API_KEY : str;
  BROWSERLESS_TOKEN : str;
  post : Request -> result Response;
  str_exn : exn -> str;
  repr : value -> str
}.

(** [f"{v}"] *)
Definition fmt (w : World) (v : value) : str :=
  match v with
  | VStr s => s
  | _ => repr w v
  end.

(** A computation that sends requests and returns or raises: the requests
    it sent, in order, and its result. *)
Definition IO (A : Type) : Type := list Request * result A.

Definition ret {A} (a : A) : IO A := ([], Ok a).

Definition lift {A} (r : result A) : IO A := ([], r).

Definition raise {A} (e : exn) : IO A := ([], Raise e).

Definition bind {A B} (m : IO A) (k : A -> IO B) : IO B :=
  match m with
  | (sent, Ok a) => let (sent', r) := k a in (sent ++ sent', r)
  | (sent, Raise e) => (sent, Raise e)
  end.

(** [try: m  except Exception as e: h e] *)
Definition try_except {A} (m : IO A) (h : exn -> IO A) : IO A :=
  match m with
  | (sent, Raise e) => let (sent', r) := h e in (sent ++ sent', r)
  | (sent, Ok a) => (sent, Ok a)
  end.

Definition requests_post (w : World) (r : Request) : IO Response :=
  ([r], post w r).

(** [resp.raise_for_status()] raises for the 4xx and 5xx codes. *)
Definition raise_for_status (resp : Response) : result unit :=
  if ((400 <=? status_code resp) && (status_code resp <? 600))%Z
  then Raise (HTTPError (status_code resp))
  else Ok tt.

(** A generator body that has sent requests before its first yield. *)
Definition GIO : Type := list Request * gen.

Definition gbind {A} (m : IO A) (k : A -> GIO) : GIO :=
  match m with
  | (sent, Ok a) => let (sent', g) := k a in (sent ++ sent', g)
  | (sent, Raise e) => (sent, Throw e)
  end.

(** [try: (yield from g)  except Exception as exc: h exc] *)
Fixpoint gen_except (g : gen) (h : exn -> gen) : gen :=
  match g with
  | Yield v k => Yield v (gen_except k h)
  | Return => Return
  | Throw e => h e
  end.

(** [for chunk in g: parts.append(chunk)] *)
Definition drive (g : gen) : result (list value) :=
  match outcome g with
  | None => Ok (yields g)
  | Some e => Raise e
  end.

End Http.

Declare Scope io_scope.
Delimit Scope io_scope with io.
Notation "x <- m ;; k" := (Http.bind m (fun x => k))
  (at level 61, m at next level, right associativity) : io_scope.
Notation "x <-? m ;; k" := (Py.rbind m (fun x => k))
  (at level 61, m at next level, right associativity) : io_scope.

(* ===================================================================== *)
(** ** backend/app/main.py                                                *)
(* ===================================================================== *)

Module Main.

Import Py Codec Json Http.
Local Open Scope io_scope.
Local Open Scope Z_scope.

Definition BROWSERLESS_BASE : str := py "https://production-sfo.browserless.io".

(** In the two long literals below [~] stands for the double quote. *)
Definition dquotes (s : str) : str :=
  map (fun c => if (c =? 126)%N then DQUOTE else c) s.

Definition json_headers : list (str * str) :=
  [(py "Content-Type", py "application/json")].

(** *** extract_design_context *)

Definition extract_script : str := dquotes (py "
        () => {
            const isElementVisible = (el) => {
                const rect = el.getBoundingClientRect();
                const style = window.getComputedStyle(el);
                return (
                    rect.width > 5 &&
                    rect.height > 5 &&
                    style.display !== 'none' &&
                    style.visibility !== 'hidden' &&
                    style.opacity !== '0'
                );
            };

            const getElementDetails = (el) => {
                const rect = el.getBoundingClientRect();
                const style = window.getComputedStyle(el);
                const attrs = {};
                for (let attr of el.attributes) {
                    attrs[attr.name] = attr.value;
                }

                return {
                    tagName: el.tagName.toLowerCase(),
                    attributes: attrs,
                    textContent: el.innerText?.trim() || ~~,
                    boundingClientRect: {
                        x: rect.x,
                        y: rect.y,
                        width: rect.width,
                        height: rect.height
                    },
                    computedStyle: {
                        color: style.color,
                        backgroundColor: style.backgroundColor,
                        fontSize: style.fontSize,
                        fontWeight: style.fontWeight,
                        fontFamily: style.fontFamily,
                        textAlign: style.textAlign,
                        display: style.display,
                        position: style.position,
                        margin: style.margin,
                        padding: style.padding,
                        border: style.border,
                        borderRadius: style.borderRadius,
                        boxShadow: style.boxShadow,
                        zIndex: style.zIndex,
                        opacity: style.opacity,
                        overflow: style.overflow,
                        flexDirection: style.flexDirection,
                        justifyContent: style.justifyContent,
                        alignItems: style.alignItems,
                        gap: style.gap
                    },
                    htmlSnippet: el.cloneNode(false).outerHTML
                };
            };

            const elements = Array.from(document.querySelectorAll('body *'));
            const elementMap = elements
                .filter(isElementVisible)
                .map(getElementDetails);

            return {
                title: document.title,
                elementMap,
                viewport: {
                    width: window.innerWidth,
                    height: window.innerHeight
                },
                meta: {
                    description: document.querySelector('meta[name=~description~]')?.content || ~~,
                    keywords: document.querySelector('meta[name=~keywords~]')?.content || ~~
                }
            };
        }
        ").

(** The request of [extract_design_context]: endpoint, headers, payload
    and timeout as the function builds them. *)
Definition function_request (w : World) (url : str) : Request :=
  let endpoint := BROWSERLESS_BASE ++ py "/function?token=" ++ BROWSERLESS_TOKEN w in
  let headers := json_headers in
  let payload := VDict [(py "url", VStr url);
                        (py "function", VStr extract_script)] in
  {| req_url := endpoint; req_headers := headers; req_json := payload;
     req_timeout := Some 30; req_stream := false |}.

Definition extract_design_context (w : World) (url : str) : IO value :=
  try_except
    (resp <- requests_post w (function_request w url) ;;
     _ <- lift (raise_for_status resp) ;;
     lift (json resp))
    (fun e =>
       ret (VDict [(py "error",
                    VStr (py "Failed to extract design context: "
                          ++ str_exn w e))])).

(** *** extract_dom_structure *)

(** The loop over [content['data']]. *)
Fixpoint css_loop (items : list value) (css_content : list value)
  : result (list value) :=
  match items with
  | [] => Ok css_content
  | item :: rest =>
      selector <-? get item (py "selector") VNone ;;
      if eq_str selector (py "style")
      then t <-? get item (py "text") (VStr []) ;;
           css_loop rest (css_content ++ [t])
      else css_loop rest css_content
  end.

Definition content_request (w : World) (url : str) : Request :=
  let endpoint := BROWSERLESS_BASE ++ py "/content?token=" ++ BROWSERLESS_TOKEN w in
  let headers := json_headers in
  let payload :=
    VDict [(py "url", VStr url);
           (py "elements",
            VList [VDict [(py "selector", VStr (py "head"))];
                   VDict [(py "selector", VStr (py "body"))];
                   VDict [(py "selector", VStr (py "style"))];
                   VDict [(py "selector", VStr (py "link[rel='stylesheet']"))]])] in
  {| req_url := endpoint; req_headers := headers; req_json := payload;
     req_timeout := Some 30; req_stream := false |}.

(** From the decoded answer to the returned mapping: the [try] block after
    [content = resp.json()]. *)
Definition dom_of_content (content : value) : result value :=
  has_data <-? contains content (py "data") ;;
  css_content <-? (if has_data : bool
                   then data <-? subscript content (VStr (py "data")) ;;
                        items <-? iter data ;;
                        css_loop items []
                   else Ok []) ;;
  css <-? join_values [NL] css_content ;;
  Ok (VDict [(py "html", content); (py "extracted_css", VStr css)]).

Definition extract_dom_structure (w : World) (url : str) : IO value :=
  try_except
    (resp <- requests_post w (content_request w url) ;;
     _ <- lift (raise_for_status resp) ;;
     content <- lift (json resp) ;;
     lift (dom_of_content content))
    (fun e =>
       ret (VDict [(py "error",
                    VStr (py "Failed to extract DOM: " ++ str_exn w e))])).

(** *** grab_screenshot *)

(** [if tags:] on an optional list. *)
Definition given (tags : option (list dict)) : bool :=
  match tags with
  | Some (_ :: _) => true
  | Some [] | None => false
  end.

Definition tags_value (tags : option (list dict)) : value :=
  match tags with
  | Some l => VList (map VDict l)
  | None => VNone
  end.

Definition screenshot_request (w : World) (url : str)
    (add_script_tag add_style_tag : option (list dict)) (timeout : Z)
  : Request :=
  let endpoint := BROWSERLESS_BASE ++ py "/screenshot?token=" ++ BROWSERLESS_TOKEN w in
  let headers := [(py "Cache-Control", py "no-cache");
                  (py "Content-Type", py "application/json")] in
  let payload : dict :=
    [(py "url", VStr url);
     (py "options", VDict [(py "fullPage", VBool true);
                           (py "type", VStr (py "png"));
                           (py "quality", VInt 90)])] in
  let payload := if given add_script_tag
                 then dict_set payload (py "addScriptTag") (tags_value add_script_tag)
                 else payload in
  let payload := if given add_style_tag
                 then dict_set payload (py "addStyleTag") (tags_value add_style_tag)
                 else payload in
  {| req_url := endpoint; req_headers := headers; req_json := VDict payload;
     req_timeout := Some timeout; req_stream := false |}.

Definition grab_screenshot (w : World) (url : str)
    (add_script_tag add_style_tag : option (list dict)) (timeout : Z)
  : IO bytes :=
  resp <- requests_post w
            (screenshot_request w url add_script_tag add_style_tag timeout) ;;
  _ <- lift (raise_for_status resp) ;;
  ret (content resp).

(** *** capture_responsive_views *)

Definition mobile_viewport : value :=
  VDict [(py "width", VInt 375); (py "height", VInt 667)].
Definition tablet_viewport : value :=
  VDict [(py "width", VInt 768); (py "height", VInt 1024)].
Definition desktop_viewport : value :=
  VDict [(py "width", VInt 1440); (py "height", VInt 900)].

Definition viewports : list (str * value) :=
  [(py "mobile", mobile_viewport);
   (py "tablet", tablet_viewport);
   (py "desktop", desktop_viewport)].

Definition viewport_request (w : World) (url : str) (viewport : value)
  : Request :=
  let endpoint := BROWSERLESS_BASE ++ py "/screenshot?token=" ++ BROWSERLESS_TOKEN w in
  let headers := json_headers in
  let payload := VDict [(py "url", VStr url);
                        (py "options", VDict [(py "fullPage", VBool true);
                                              (py "type", VStr (py "png"))]);
                        (py "viewport", viewport)] in
  {| req_url := endpoint; req_headers := headers; req_json := payload;
     req_timeout := Some 30; req_stream := false |}.

(** The body of the loop for one device: the string stored under its key. *)
Definition capture_view (w : World) (url : str) (viewport : value) : IO str :=
  try_except
    (resp <- requests_post w (viewport_request w url viewport) ;;
     _ <- lift (raise_for_status resp) ;;
     ret (b64encode (content resp)))
    (fun e => ret (py "Error: " ++ str_exn w e)).

Fixpoint capture_loop (w : World) (url : str) (items : list (str * value))
    (screenshots : dict) : IO dict :=
  match items with
  | [] => ret screenshots
  | (device, viewport) :: rest =>
      shot <- capture_view w url viewport ;;
      capture_loop w url rest (dict_set screenshots device (VStr shot))
  end.

Definition capture_responsive_views (w : World) (url : str) : IO dict :=
  capture_loop w url viewports [].

(** *** stream_clone_html_enhanced *)

Definition system_prompt (w : World) (title : value) (element_count : Z)
    (width height : value) : str :=
  py "You are an expert front-end developer...
Your task is to generate a single, self-contained `<!doctype html>` document that visually and structurally replicates the provided screenshot.

**KEY INFORMATION:**
- **Page Title**: " ++ [DQUOTE] ++ fmt w title ++ [DQUOTE]
  ++ py "
- **Element Count**: The page has roughly " ++ fmt w (VInt element_count)
  ++ py " significant elements.
- **Viewport**: The screenshot was taken at " ++ fmt w width ++ py "x" ++ fmt w height
  ++ py " pixels.

**YOUR INSTRUCTIONS:**
1.  **Analyze the Screenshot**: The screenshot is your primary source of truth. Replicate the layout, colors, typography, and spacing you see.
2.  **Use Tailwind CSS**: You MUST use Tailwind CSS for all styling.
3.  **Structure**: Recreate the HTML structure (divs, headings, paragraphs, images) to match the visual hierarchy in the image.
4.  **Content**: Use placeholder text where necessary but try to infer headings and button text from the image.
5.  **Self-Contained HTML**: The final output must be a single HTML file with the Tailwind CDN script.

**GOAL**:
Produce a high-fidelity clone based on the visual information in the screenshot.
".

(** What one pass through the body of the [for raw in resp.iter_lines()]
    loop does. *)
Inductive line_step :=
| Continue              (* go on with the next line, nothing yielded *)
| Emit (text : value)   (* [yield text], then the next line *)
| Break                 (* leave the loop *)
| Fail (e : exn).       (* an exception leaves the generator *)

(** [obj["choices"][0]["delta"]] followed by [delta.get("content")]. *)
Definition delta_content (obj : value) : result value :=
  choices <-? subscript obj (VStr (py "choices")) ;;
  choice <-? subscript choices (VInt 0) ;;
  delta <-? subscript choice (VStr (py "delta")) ;;
  get delta (py "content") VNone.

Definition loop_body (raw : bytes) : line_step :=
  match raw with
  | EmptyString => Continue                                (* if not raw *)
  | String _ _ =>
      match decode raw with
      | Raise e => Fail e
      | Ok line =>
          if startswith line (py "data: ") then
            let data := strip (skipn 6 line) in
            if str_eqb data (py "[DONE]") then Break
            else
              match (obj <-? json_loads data ;; delta_content obj) with
              | Ok VNone => Continue
              | Ok text => Emit text
              | Raise (KeyError _) | Raise JSONDecodeError => Continue
              | Raise e => Fail e
              end
          else Continue
      end
  end.

(** The [for] loop over the lines of the response; [ending] is the
    exception [iter_lines] raises after the last line, if any. *)
Fixpoint for_lines (raws : list bytes) (ending : option exn) : gen :=
  match raws with
  | [] => match ending with
          | Some e => Throw e
          | None => Return
          end
  | raw :: rest =>
      match loop_body raw with
      | Continue => for_lines rest ending
      | Emit text => Yield text (for_lines rest ending)
      | Break => Return
      | Fail e => Throw e
      end
  end.

(** The last statement of the generator. *)
Definition closing_tag : value := VStr (NL :: py "</html>").

Definition invoke_url : str :=
  py "https://integrate.api.nvidia.com/v1/chat/completions".

Definition chat_payload (url system_prompt : str) (png_b64 : str) : value :=
  VDict
    [(py "model", VStr (py "mistralai/mistral-medium-3-instruct"));
     (py "messages",
      VList
        [VDict [(py "role", VStr (py "system"));
                (py "content", VStr system_prompt)];
         VDict
           [(py "role", VStr (py "user"));
            (py "content",
             VList
               [VDict [(py "type", VStr (py "image_url"));
                       (py "image_url",
                        VDict [(py "url",
                                VStr (py "data:image/png;base64," ++ png_b64))])];
                VDict [(py "type", VStr (py "text"));
                       (py "text",
                        VStr (py "Please clone this website: " ++ url
                              ++ py ". Use all the provided design context to make it as accurate as possible."))]])]]);
     (py "stream", VBool true);
     (py "max_tokens", VInt 4096);
     (py "temperature", VFloat (FDec false 3 (-1)));
     (py "top_p", VFloat (FDec false 9 (-1)))].

Definition chat_request (w : World) (payload : value) : Request :=
  {| req_url := invoke_url;
     req_headers := [(py "Authorization", py "Bearer " ++ NVIDIA_API_KEY w);
                     (py "Accept", py "text/event-stream")];
     req_json := payload;
     req_timeout := None;
     req_stream := true |}.

(** [screenshots.get(key, default)] on a dictionary. *)
Definition dict_get_default (d : dict) (k : str) (default : value) : value :=
  match dict_get d k with
  | Some v => v
  | None => default
  end.

(** The generator up to the loop: the choice of the image, the prompt, the
    request to the model and the check of its status. *)
Definition open_stream (w : World) (url : str) (design_context : value)
    (screenshots : dict) (add_script_tag add_style_tag : option (list dict))
  : IO Response :=
  let main_screenshot := dict_get_default screenshots (py "desktop") (VStr []) in
  png_b64 <- (if negb (truthy main_screenshot)
              then png <- grab_screenshot w url add_script_tag add_style_tag 30 ;;
                   ret (VStr (b64encode png))
              else ret main_screenshot) ;;
  title <- lift (get design_context (py "title") (VStr (py "Untitled"))) ;;
  element_map <- lift (get design_context (py "elementMap") (VList [])) ;;
  element_count <- lift (len element_map) ;;
  viewport <- lift (get design_context (py "viewport") (VDict [])) ;;
  width <- lift (get viewport (py "width") VNone) ;;
  height <- lift (get viewport (py "height") VNone) ;;
  let prompt := system_prompt w title element_count width height in
  let payload := chat_payload url prompt (fmt w png_b64) in
  resp <- requests_post w (chat_request w payload) ;;
  if negb (status_code resp =? 200)
  then raise (HTTPException (status_code resp) (text resp))
  else ret resp.

Definition stream_clone_html_enhanced (w : World) (url : str)
    (design_context dom_structure : value) (screenshots : dict)
    (add_script_tag add_style_tag : option (list dict)) : GIO :=
  gbind
    (open_stream w url design_context screenshots add_script_tag add_style_tag)
    (fun resp =>
       ([], gen_then (for_lines (iter_lines resp) (iter_lines_end resp))
                     (Yield closing_tag Return))).

(** *** The endpoints *)

(** GET / *)
Definition read_root : value :=
  VDict [(py "message", VStr (py " Orchids Website Cloner"))].

(** POST /analyze *)
Definition analyze_website (w : World) (url : str) : IO value :=
  design_context <- extract_design_context w url ;;
  dom_structure <- extract_dom_structure w url ;;
  screenshots <- capture_responsive_views w url ;;
  ret (VDict [(py "url", VStr url);
              (py "design_context", design_context);
              (py "dom_structure", dom_structure);
              (py "screenshots", VDict screenshots)]).

(** [[tag for tag in tags if tag and any(tag.values())]] *)
Definition valid_tag (tag : dict) : bool :=
  truthy (VDict tag) && any (values tag).

(** [if tags: tags = [...]] *)
Definition filter_tags (tags : option (list dict)) : option (list dict) :=
  match tags with
  | Some ((_ :: _) as l) => Some (filter valid_tag l)
  | Some [] | None => tags
  end.

(** [tags or None] *)
Definition or_none (tags : option (list dict)) : option (list dict) :=
  if given tags then tags else None.

(** The comment-shaped chunk of the incremental mode. *)
Definition error_chunk (w : World) (exc : exn) : value :=
  VStr (py "<!-- Error: " ++ str_exn w exc ++ py " -->").

(** POST /clone: the chunks of the streaming response are the items of the
    inner [generator()]. *)
Definition try_body (w : World) (url : str)
    (add_script_tag add_style_tag : option (list dict)) : GIO :=
  gbind (extract_design_context w url) (fun design_context =>
  gbind (extract_dom_structure w url) (fun dom_structure =>
  gbind (capture_responsive_views w url) (fun screenshots =>
    stream_clone_html_enhanced w url design_context dom_structure
      screenshots (or_none add_script_tag) (or_none add_style_tag)))).

Definition generator (w : World) (url : str)
    (add_script_tag add_style_tag : option (list dict)) : GIO :=
  let (sent, g) := try_body w url add_script_tag add_style_tag in
  (sent, gen_except g (fun exc => Yield (error_chunk w exc) Return)).

Definition clone_site_enhanced (w : World) (url : str)
    (add_script_tag add_style_tag : option (list dict)) : GIO :=
  let add_script_tag := filter_tags add_script_tag in
  let add_style_tag := filter_tags add_style_tag in
  generator w url add_script_tag add_style_tag.

(** POST /clone-complete *)
Definition clone_site_complete (w : World) (url : str)
    (add_script_tag add_style_tag : option (list dict)) : IO value :=
  try_except
    (design_context <- extract_design_context w url ;;
     dom_structure <- extract_dom_structure w url ;;
     screenshots <- capture_responsive_views w url ;;
     html_parts <-
       (let (sent, g) :=
          stream_clone_html_enhanced w url design_context dom_structure
            screenshots add_script_tag add_style_tag in
        (sent, drive g)) ;;
     html_content <- lift (join_values [] html_parts) ;;
     colors <- lift (get design_context (py "colors") (VList [])) ;;
     colors_found <- lift (len colors) ;;
     fonts <- lift (get design_context (py "fonts") (VList [])) ;;
     fonts_found <- lift (len fonts) ;;
     text_content <- lift (get design_context (py "textContent") (VDict [])) ;;
     headings <- lift (get text_content (py "headings") (VList [])) ;;
     headings_count <- lift (len headings) ;;
     images <- lift (get design_context (py "images") (VList [])) ;;
     images_count <- lift (len images) ;;
     ret (VDict [(py "html", VStr html_content);
                 (py "design_context", design_context);
                 (py "dom_structure", dom_structure);
                 (py "screenshots", VDict screenshots);
                 (py "analysis",
                  VDict [(py "colors_found", VInt colors_found);
                         (py "fonts_found", VInt fonts_found);
                         (py "headings_count", VInt headings_count);
                         (py "images_count", VInt images_count)])]))
    (fun e =>
       raise (HTTPException 500 (py "Failed to clone website: " ++ str_exn w e))).

End Main.

(* ===================================================================== *)
(** ** Sample worlds and inputs                                           *)
(* ===================================================================== *)

Module Samples.

Import Py Codec Json Http Main.
Local Open Scope Z_scope.

(** Byte strings with double quotes are written with apostrophes. *)
Fixpoint quoted (s : string) : bytes :=
  match s with
  | EmptyString => EmptyString
  | String c r =>
      String (if Ascii.eqb c "'" then ascii_of_nat 34 else c) (quoted r)
  end.

Definition line_A : bytes :=
  quoted "data: {'choices':[{'delta':{'content':'A'}}]}".
Definition line_B : bytes :=
  quoted "data: {'choices':[{'delta':{'content':'B'}}]}".
Definition line_DONE : bytes := "data: [DONE]"%string.
Definition line_not_json : bytes := "data: not-json"%string.
Definition line_no_choices : bytes := quoted "data: {'id':'cmpl-1'}".
Definition line_empty_choices : bytes := quoted "data: {'choices':[]}".

Definition site : str := py "https://example.org".

(** An answer of the model endpoint with the given status and body lines. *)
Definition event_stream (status : Z) (body : list bytes) (ending : option exn)
  : Response :=
  {| status_code := status; content := EmptyString; text := py "body";
     json := Raise JSONDecodeError; iter_lines := body;
     iter_lines_end := ending |}.

(** An answer of the scraping service. *)
Definition scraped (status : Z) (body : bytes) (parsed : result value)
  : Response :=
  {| status_code := status; content := body; text := [];
     json := parsed; iter_lines := []; iter_lines_end := None |}.

Definition print_exn (e : exn) : str :=
  match e with
  | RequestException msg => msg
  | HTTPError _ => py "http error"
  | HTTPException _ detail => detail
  | IndexError => py "list index out of range"
  | _ => py "error"
  end.

(** A world from the answers of the two services. *)
Definition world (model : result Response)
    (browserless : Request -> result Response) : World :=
  {| NVIDIA_API_KEY := py "nv-key";
     BROWSERLESS_TOKEN := py "bl-token";
     post := fun r => if str_eqb (req_url r) invoke_url then model
                      else browserless r;
     str_exn := print_exn;
     repr := fun _ => py "?" |}.

Definition unreachable (_ : Request) : result Response :=
  Raise (RequestException (py "connection refused")).

(** The width asked for by a viewport request. *)
Definition viewport_width (r : Request) : option Z :=
  match req_json r with
  | VDict d =>
      match dict_get d (py "viewport") with
      | Some (VDict v) =>
          match dict_get v (py "width") with
          | Some (VInt n) => Some n
          | _ => None
          end
      | _ => None
      end
  | _ => None
  end.

(** A scraping service that times out on the viewport of the given width
    and answers every other request with the two bytes "hi". *)
Definition viewport_down (width : Z) (r : Request) : result Response :=
  match viewport_width r with
  | Some n =>
      if n =? width then Raise (RequestException (py "timed out"))
      else Ok (scraped 200 "hi"%string (Raise JSONDecodeError))
  | None => Ok (scraped 200 "hi"%string (Raise JSONDecodeError))
  end.

Definition tablet_down : Request -> result Response := viewport_down 768.

(** A scraping service that answers every request with status 200 and the
    given JSON document. *)
Definition answers_json (doc : value) (_ : Request) : result Response :=
  Ok (scraped 200 EmptyString (Ok doc)).

Definition quota_error : value :=
  VDict [(py "error", VStr (py "quota exceeded"))].

(** A /content answer with a head element and two style elements. *)
Definition styled_page : value :=
  VDict
    [(py "data",
      VList [VDict [(py "selector", VStr (py "head"));
                    (py "text", VStr (py "title"))];
             VDict [(py "selector", VStr (py "style"));
                    (py "text", VStr (py "a{}"))];
             VDict [(py "selector", VStr (py "style"));
                    (py "text", VStr (py "b{}"))]])].

(** A world in which every capture comes back with an empty body, so that
    the desktop entry is the empty string and the fallback is taken, and
    the model streams one increment. *)
Definition blank_world : World :=
  world (Ok (event_stream 200 [line_A; line_DONE] None))
        (answers_json (VDict [])).

(** The body [{"add_script_tag": [{}]}]: one empty directive. *)
Definition empty_directive : option (list dict) := Some [[]].

(** A screenshot set with a desktop capture. *)
Definition shots : dict := [(py "desktop", VStr (py "aGk="))].

(** The generator on the sample page, with an empty design context. *)
Definition stream_on (w : World) : GIO :=
  stream_clone_html_enhanced w site (VDict []) (VDict []) shots None None.

(** The world whose model endpoint answers with the given status and lines,
    the connection closing after them. *)
Definition model_answers (status : Z) (body : list bytes) : World :=
  world (Ok (event_stream status body None)) unreachable.

(** A data line whose content is the number 7. *)
Definition line_seven : bytes :=
  quoted "data: {'choices':[{'delta':{'content':7}}]}".

(** A scraping service that answers every request with the two bytes
    "hi". *)
Definition answers_hi : Request -> result Response := viewport_down 0.

(** The world in which the model streams one increment and the scraping
    service answers "hi". *)
Definition hi_world : World :=
  world (Ok (event_stream 200 [line_A; line_DONE] None)) answers_hi.

(** The world in which the connection to the model breaks after the first
    line. *)
Definition reset_world : World :=
  world (Ok (event_stream 200 [line_A]
               (Some (RequestException (py "connection reset")))))
        unreachable.

(** A body with one script directive that has a url. *)
Definition script_directive : option (list dict) :=
  Some [[(py "url", VStr (py "https://cdn.example.org/a.js"))]].

(** A /content answer whose only element is a number. *)
Definition number_page : value := VDict [(py "data", VList [VInt 1])].

(** The request to the model in the sample worlds with an unreachable
    scraping service: default prompt, the error text as image. *)
Definition default_chat_request (w : World) (png : str) : Request :=
  chat_request w
    (chat_payload site
       (system_prompt w (VStr (py "Untitled")) 0 VNone VNone) png).

End Samples.

(* ===================================================================== *)
(** ** Properties                                                         *)
(* ===================================================================== *)

Import Py Codec Json Http Main Samples.
Local Open Scope Z_scope.
Local Open Scope io_scope.

(** *** The vocabulary of the statements *)

(** A line the loop passes without leaving: it is skipped or it yields. *)
Definition passes (raw : bytes) : Prop :=
  loop_body raw = Continue \/ exists t, loop_body raw = Emit t.

(** The increment a line contributes. *)
Definition emitted (raw : bytes) : list value :=
  match loop_body raw with
  | Emit t => [t]
  | _ => []
  end.

Ltac io_step := cbn [bind ret lift raise requests_post fst snd app].
Ltac io_case :=
  match goal with
  | |- context [match ?r with Ok _ => _ | Raise _ => _ end] =>
      destruct r as [?|?]; io_step
  end.

(** The value [screenshots.get('desktop', '')]. *)
Definition main_screenshot_of (screenshots : dict) : value :=
  dict_get_default screenshots (py "desktop") (VStr []).

(** A sequence of fallible steps that succeeded: its first step did. *)
Ltac rbind_inv H :=
  match type of H with
  | rbind ?m _ = Ok _ =>
      let a := fresh "a" in
      destruct m as [a|] eqn:?; [cbn [rbind] in H | discriminate H]
  end.

(** The mapping an extraction function returns for a caught exception. *)
Definition error_shaped (prefix : str) (w : World) (e : exn) : value :=
  VDict [(py "error", VStr (prefix ++ str_exn w e))].

(** The string [capture_responsive_views] stores for one viewport, read off
    the answer of the world to that viewport's request. *)
Definition captured (w : World) (url : str) (viewport : value) (shot : str)
  : Prop :=
  (forall e, post w (viewport_request w url viewport) = Raise e ->
             shot = py "Error: " ++ str_exn w e)
  /\ (forall resp e,
         post w (viewport_request w url viewport) = Ok resp ->
         raise_for_status resp = Raise e ->
         shot = py "Error: " ++ str_exn w e)
  /\ (forall resp,
         post w (viewport_request w url viewport) = Ok resp ->
         raise_for_status resp = Ok tt ->
         shot = b64encode (content resp)).

(** The call of an extraction function fails: the transport raises, the
    status is an error status, or the body is not JSON. *)
Definition call_fails (w : World) (req : Request) (e : exn) : Prop :=
  post w req = Raise e
  \/ (exists resp, post w req = Ok resp /\ raise_for_status resp = Raise e)
  \/ (exists resp, post w req = Ok resp /\ raise_for_status resp = Ok tt
                   /\ json resp = Raise e).

(** The call succeeds with a JSON payload. *)
Definition call_returns (w : World) (req : Request) (payload : value) : Prop :=
  exists resp, post w req = Ok resp /\ raise_for_status resp = Ok tt
               /\ json resp = Ok payload.

(** The elements of a /content answer: the items under its [data] key. *)
Definition returned_elements (content : value) : list value :=
  match content with
  | VDict d =>
      match dict_get d (py "data") with
      | Some (VList items) => items
      | _ => []
      end
  | _ => []
  end.

(** An element whose selector is [style]. *)
Definition is_style_element (item : value) : bool :=
  match item with
  | VDict d => eq_str (dict_get_default d (py "selector") VNone) (py "style")
  | _ => false
  end.

(** The value under the [text] key of an element, the empty string when the
    key is absent. *)
Definition raw_text (item : value) : value :=
  match item with
  | VDict d => dict_get_default d (py "text") (VStr [])
  | _ => VNone
  end.

Definition element_text (item : value) : str :=
  match raw_text item with
  | VStr s => s
  | _ => []
  end.

(** An element as the service documents it: a mapping whose text, when it
    has one, is a string. *)
Definition well_formed_element (item : value) : Prop :=
  exists d, item = VDict d /\ exists s, raw_text item = VStr s.

(** The image reference of a chat payload:
    [payload["messages"][1]["content"][0]["image_url"]["url"]]. *)
Definition image_url (payload : value) : result value :=
  messages <-? subscript payload (VStr (py "messages")) ;;
  user <-? subscript messages (VInt 1) ;;
  parts <-? subscript user (VStr (py "content")) ;;
  image <-? subscript parts (VInt 0) ;;
  ref <-? subscript image (VStr (py "image_url")) ;;
  subscript ref (VStr (py "url")).

(** The failure of the complete mode for the exception [e]. *)
Definition clone_failure (w : World) (e : exn) : exn :=
  HTTPException 500 (py "Failed to clone website: " ++ str_exn w e).


(** The fallback screenshot fails with [e]. *)
Definition fallback_fails (w : World) (url : str) (a b : option (list dict))
    (e : exn) : Prop :=
  post w (screenshot_request w url a b 30) = Raise e
  \/ exists resp, post w (screenshot_request w url a b 30) = Ok resp
                  /\ raise_for_status resp = Raise e.

(** The five requests of the extraction step. *)
Definition extraction_requests (w : World) (url : str) : list Request :=
  [function_request w url; content_request w url;
   viewport_request w url mobile_viewport;
   viewport_request w url tablet_viewport;
   viewport_request w url desktop_viewport].

(** The analysis summary of /clone-complete: the four counts. *)
Definition analysis_summary (design_context : value) : result value :=
  colors <-? get design_context (py "colors") (VList []) ;;
  colors_found <-? len colors ;;
  fonts <-? get design_context (py "fonts") (VList []) ;;
  fonts_found <-? len fonts ;;
  text_content <-? get design_context (py "textContent") (VDict []) ;;
  headings <-? get text_content (py "headings") (VList []) ;;
  headings_count <-? len headings ;;
  images <-? get design_context (py "images") (VList []) ;;
  images_count <-? len images ;;
  Ok (VDict [(py "colors_found", VInt colors_found);
             (py "fonts_found", VInt fonts_found);
             (py "headings_count", VInt headings_count);
             (py "images_count", VInt images_count)]).

(** The result of /clone-complete, from the generator and the artifacts. *)
Definition complete_result (w : World) (url : str) (dc dom : value)
    (shots : dict) (g : gen) : result value :=
  match drive g with
  | Raise e => Raise (clone_failure w e)
  | Ok html_parts =>
      match join_values [] html_parts with
      | Raise e => Raise (clone_failure w e)
      | Ok html_content =>
          match analysis_summary dc with
          | Raise e => Raise (clone_failure w e)
          | Ok analysis =>
              Ok (VDict [(py "html", VStr html_content);
                         (py "design_context", dc);
                         (py "dom_structure", dom);
                         (py "screenshots", VDict shots);
                         (py "analysis", analysis)])
          end
      end
  end.

(** A directive /clone lets through: not empty, with a truthy value. *)
Definition usable (tag : dict) : Prop :=
  tag <> [] /\ exists v, In v (values tag) /\ truthy v = true.

(** [headers.get(name)] on the headers of a request. *)
Fixpoint header (headers : list (str * str)) (name : str) : option str :=
  match headers with
  | [] => None
  | (k, v) :: rest => if str_eqb k name then Some v else header rest name
  end.

(** A request as the scraping service gets it: to one of its three paths,
    with the token in the query, thirty seconds of timeout, not streamed,
    and without the key of the model provider. *)
Definition scraping_call (w : World) (req : Request) : Prop :=
  (exists path,
      In path [py "/function"; py "/content"; py "/screenshot"]
      /\ req_url req
         = BROWSERLESS_BASE ++ path ++ py "?token=" ++ BROWSERLESS_TOKEN w)
  /\ req_timeout req = Some 30
  /\ req_stream req = false
  /\ header (req_headers req) (py "Authorization") = None.

(** A request as the model provider gets it: streamed, without timeout,
    with the key as bearer credential. *)
Definition model_call (w : World) (req : Request) : Prop :=
  req_url req = invoke_url
  /\ req_timeout req = None
  /\ req_stream req = true
  /\ req_headers req
     = [(py "Authorization", py "Bearer " ++ NVIDIA_API_KEY w);
        (py "Accept", py "text/event-stream")].

(** *** The model on small inputs *)

Example b64encode_Man : b64encode "Man"%string = py "TWFu".
Proof. reflexivity. Qed.

Example b64encode_padding :
  b64encode "M"%string = py "TQ==" /\ b64encode "Ma"%string = py "TWE="
  /\ b64encode EmptyString = [].
Proof. repeat split. Qed.

Example decode_rejects_lone_continuation_byte :
  decode (String (ascii_of_nat 128) EmptyString) = Raise UnicodeDecodeError.
Proof. reflexivity. Qed.

Example strip_removes_surrounding_whitespace :
  strip (py "  [DONE] " ++ [13; 10]%N) = py "[DONE]".
Proof. reflexivity. Qed.

Example json_loads_delta :
  json_loads (skipn 6 (byte_values line_A))
  = Ok (VDict [(py "choices",
                VList [VDict [(py "delta",
                               VDict [(py "content", VStr (py "A"))])]])]).
Proof. vm_compute. reflexivity. Qed.

Example json_loads_rejects_text :
  json_loads (py "not-json") = Raise JSONDecodeError
  /\ json_loads [] = Raise JSONDecodeError
  /\ json_loads (py "[1,]") = Raise JSONDecodeError
  /\ json_loads (py "01") = Raise JSONDecodeError.
Proof. repeat split; vm_compute; reflexivity. Qed.

Example json_loads_numbers :
  json_loads (py "[0, -12, 2.50e3, -0.0, NaN]")
  = Ok (VList [VInt 0; VInt (-12); VFloat (FDec false 250 1);
               VFloat (FDec true 0 (-1)); VFloat FNaN]).
Proof. vm_compute. reflexivity. Qed.

Example truthy_floats :
  truthy (VFloat (FDec true 0 (-1))) = false
  /\ truthy (VFloat (FDec false 2 (-324))) = false
  /\ truthy (VFloat (FDec false 3 (-324))) = true
  /\ truthy (VFloat FNaN) = true.
Proof. repeat split; vm_compute; reflexivity. Qed.

Example subscript_raises :
  subscript (VList []) (VInt 0) = Raise IndexError
  /\ subscript (VDict []) (VInt 0) = Raise (KeyError (VInt 0))
  /\ subscript (VDict []) (VStr (py "choices"))
     = Raise (KeyError (VStr (py "choices")))
  /\ subscript (VInt 1) (VStr (py "choices")) = Raise TypeError
  /\ get VNone (py "content") VNone = Raise AttributeError.
Proof. repeat split. Qed.

Example loop_body_cases :
  loop_body EmptyString = Continue
  /\ loop_body ": keep-alive"%string = Continue
  /\ loop_body "event: message"%string = Continue
  /\ loop_body line_A = Emit (VStr (py "A"))
  /\ loop_body line_DONE = Break
  /\ loop_body "data:   [DONE]  "%string = Break
  /\ loop_body line_not_json = Continue
  /\ loop_body (quoted "data: {'choices':{}}"%string) = Continue
  /\ loop_body (quoted "data: {'choices':[{'delta':{}}]}"%string) = Continue
  /\ loop_body (quoted "data: {'choices':[{'delta':{'content':null}}]}"%string)
     = Continue
  /\ loop_body (quoted "data: {'choices':[{'delta':{'content':7}}]}"%string)
     = Emit (VInt 7)
  /\ loop_body (quoted "data: {'choices':[{'delta':null}]}"%string)
     = Fail AttributeError
  /\ loop_body (quoted "data: [1]"%string) = Fail TypeError
  /\ loop_body (String (ascii_of_nat 255) "data: x"%string) = Fail UnicodeDecodeError.
Proof. repeat split; vm_compute; reflexivity. Qed.

Example filter_tags_cases :
  filter_tags (Some [[]; [(py "content", VStr [])];
                     [(py "url", VStr (py "a.js"))];
                     [(py "id", VInt 0); (py "content", VStr (py "x"))]])
  = Some [[(py "url", VStr (py "a.js"))];
          [(py "id", VInt 0); (py "content", VStr (py "x"))]]
  /\ filter_tags None = None
  /\ filter_tags (Some []) = Some []
  /\ or_none (filter_tags (Some [[]])) = None.
Proof. repeat split. Qed.

(** *** Generators *)

Lemma yields_gen_then (g h : gen) :
  outcome g = None -> yields (gen_then g h) = yields g ++ yields h.
Proof.
  induction g as [v k IH| |e]; simpl; intros Hg.
  - now rewrite IH.
  - reflexivity.
  - discriminate.
Qed.

Lemma outcome_gen_then (g h : gen) :
  outcome (gen_then g h) =
  match outcome g with
  | None => outcome h
  | Some e => Some e
  end.
Proof. induction g as [v k IH| |e]; simpl; auto. Qed.

Lemma yields_gen_then_raise (g h : gen) (e : exn) :
  outcome g = Some e -> yields (gen_then g h) = yields g.
Proof.
  induction g as [v k IH| |e']; simpl; intros Hg.
  - now rewrite IH.
  - discriminate.
  - reflexivity.
Qed.

Lemma yields_gen_except (g : gen) (h : exn -> gen) :
  yields (gen_except g h) =
  yields g ++ match outcome g with
              | None => []
              | Some e => yields (h e)
              end.
Proof.
  induction g as [v k IH| |e]; simpl.
  - now rewrite IH.
  - reflexivity.
  - reflexivity.
Qed.


(** *** The loop over the event-stream lines *)

Lemma for_lines_break (pre : list bytes) (done : bytes) (rest : list bytes)
    (ending : option exn) :
  Forall passes pre -> loop_body done = Break ->
  yields (for_lines (pre ++ done :: rest) ending) = flat_map emitted pre
  /\ outcome (for_lines (pre ++ done :: rest) ending) = None.
Proof.
  intros Hpre Hdone. induction Hpre as [|raw pre Hraw _ IH]; simpl.
  - now rewrite Hdone.
  - unfold emitted. destruct Hraw as [H | [t H]]; rewrite H; simpl.
    + exact IH.
    + destruct IH as [IHy IHo]. now rewrite IHy, IHo.
Qed.

Lemma for_lines_close (raws : list bytes) :
  Forall passes raws ->
  yields (for_lines raws None) = flat_map emitted raws
  /\ outcome (for_lines raws None) = None.
Proof.
  intros Hraws. induction Hraws as [|raw raws Hraw _ IH]; simpl.
  - now split.
  - unfold emitted. destruct Hraw as [H | [t H]]; rewrite H; simpl.
    + exact IH.
    + destruct IH as [IHy IHo]. now rewrite IHy, IHo.
Qed.

(** A skipped line leaves no trace in the run of the loop. *)
Lemma for_lines_skip (pre : list bytes) (raw : bytes) (rest : list bytes)
    (ending : option exn) :
  Forall passes pre -> loop_body raw = Continue ->
  for_lines (pre ++ raw :: rest) ending = for_lines (pre ++ rest) ending.
Proof.
  intros Hpre Hraw. induction Hpre as [|x pre Hx _ IH]; simpl.
  - now rewrite Hraw.
  - destruct Hx as [H | [t H]]; rewrite H; now rewrite IH.
Qed.

(** *** Opening the stream *)

(** No request to the scraping service goes to the model endpoint. *)
Lemma browserless_not_invoke (suffix : str) :
  BROWSERLESS_BASE ++ suffix <> invoke_url.
Proof.
  intros H. apply (f_equal (fun l => nth_error l 8)) in H.
  vm_compute in H. discriminate.
Qed.

(** The requests [open_stream] sends: the fallback screenshot exactly when
    the desktop entry is missing or empty, then at most the request to the
    model, whose answer decides the result. *)
Lemma open_stream_inv (w : World) (url : str) (dc : value) (shots : dict)
    (a b : option (list dict)) :
  exists pre,
    (pre = [] /\ truthy (main_screenshot_of shots) = true
     \/ pre = [screenshot_request w url a b 30]
        /\ truthy (main_screenshot_of shots) = false)
    /\ ((fst (open_stream w url dc shots a b) = pre
         /\ exists e, snd (open_stream w url dc shots a b) = Raise e)
        \/ exists prompt png,
             (truthy (main_screenshot_of shots) = true ->
              png = fmt w (main_screenshot_of shots))
             /\ fst (open_stream w url dc shots a b)
                = pre ++ [chat_request w (chat_payload url prompt png)]
             /\ snd (open_stream w url dc shots a b)
                = match post w (chat_request w (chat_payload url prompt png)) with
                  | Ok resp =>
                      if status_code resp =? 200 then Ok resp
                      else Raise (HTTPException (status_code resp) (text resp))
                  | Raise e => Raise e
                  end).
Proof.
  unfold open_stream, main_screenshot_of.
  set (main := dict_get_default shots (py "desktop") (VStr [])).
  destruct (truthy main) eqn:Hmain; cbn [negb].
  - exists []. split; [now left|]. io_step.
    repeat (io_case; [|solve [left; eauto]]).
    match goal with
    | |- context [post w (chat_request w (chat_payload url ?p ?png))] =>
        right; exists p, png
    end.
    split; [reflexivity|].
    destruct (post w _) as [resp|e]; io_step; [|split; reflexivity].
    destruct (status_code resp =? 200); cbn [negb]; io_step; split; reflexivity.
  - exists [screenshot_request w url a b 30]. split; [now right|].
    unfold grab_screenshot. io_step.
    destruct (post w (screenshot_request w url a b 30)) as [shot|e]; io_step;
      [|left; eauto].
    repeat (io_case; [|solve [left; eauto]]).
    match goal with
    | |- context [post w (chat_request w (chat_payload url ?p ?png))] =>
        right; exists p, png
    end.
    split; [discriminate|].
    destruct (post w _) as [resp|e]; io_step; [|split; reflexivity].
    destruct (status_code resp =? 200); cbn [negb]; io_step; split; reflexivity.
Qed.

Lemma stream_unfold (w : World) (url : str) (dc dom : value) (shots : dict)
    (a b : option (list dict)) :
  fst (stream_clone_html_enhanced w url dc dom shots a b)
  = fst (open_stream w url dc shots a b)
  /\ snd (stream_clone_html_enhanced w url dc dom shots a b)
     = match snd (open_stream w url dc shots a b) with
       | Ok resp => gen_then (for_lines (iter_lines resp) (iter_lines_end resp))
                             (Yield closing_tag Return)
       | Raise e => Throw e
       end.
Proof.
  unfold stream_clone_html_enhanced, gbind.
  destruct (open_stream w url dc shots a b) as [sent [resp|e]]; simpl.
  - now rewrite app_nil_r.
  - now split.
Qed.

(** The only request to the model endpoint decides how the stream opens. *)
Lemma open_stream_answer (w : World) (url : str) (dc : value) (shots : dict)
    (a b : option (list dict)) (req : Request) (resp : Response) :
  In req (fst (open_stream w url dc shots a b)) ->
  req_url req = invoke_url ->
  post w req = Ok resp ->
  snd (open_stream w url dc shots a b)
  = if status_code resp =? 200 then Ok resp
    else Raise (HTTPException (status_code resp) (text resp)).
Proof.
  intros Hin Hurl Hpost.
  destruct (open_stream_inv w url dc shots a b) as (pre & Hpre & Hrun).
  assert (Hnot : ~ In req pre).
  { intros Hp. destruct Hpre as [[-> _] | [-> _]]; simpl in Hp.
    - exact Hp.
    - destruct Hp as [<- | []]. revert Hurl. apply browserless_not_invoke. }
  destruct Hrun as [[Hfst _] | (prompt & png & _ & Hfst & Hsnd)].
  - rewrite Hfst in Hin. contradiction.
  - rewrite Hfst in Hin. apply in_app_or in Hin.
    destruct Hin as [Hin | [<- | []]]; [contradiction|].
    now rewrite Hsnd, Hpost.
Qed.

(** *** The streaming parser *)


(** *** The extraction client *)

Lemma extract_design_context_run (w : World) (url : str) :
  extract_design_context w url
  = ([function_request w url],
     Ok match post w (function_request w url) with
        | Raise e => error_shaped (py "Failed to extract design context: ") w e
        | Ok resp =>
            match raise_for_status resp with
            | Raise e => error_shaped (py "Failed to extract design context: ") w e
            | Ok _ =>
                match json resp with
                | Raise e => error_shaped (py "Failed to extract design context: ") w e
                | Ok payload => payload
                end
            end
        end).
Proof.
  unfold extract_design_context, try_except. io_step.
  destruct (post w (function_request w url)) as [resp|e]; io_step; [|reflexivity].
  destruct (raise_for_status resp) as [[]|e]; io_step; [|reflexivity].
  destruct (json resp) as [payload|e]; reflexivity.
Qed.

Lemma extract_dom_structure_run (w : World) (url : str) :
  extract_dom_structure w url
  = ([content_request w url],
     Ok match post w (content_request w url) with
        | Raise e => error_shaped (py "Failed to extract DOM: ") w e
        | Ok resp =>
            match raise_for_status resp with
            | Raise e => error_shaped (py "Failed to extract DOM: ") w e
            | Ok _ =>
                match json resp with
                | Raise e => error_shaped (py "Failed to extract DOM: ") w e
                | Ok content =>
                    match dom_of_content content with
                    | Raise e => error_shaped (py "Failed to extract DOM: ") w e
                    | Ok v => v
                    end
                end
            end
        end).
Proof.
  unfold extract_dom_structure, try_except. io_step.
  destruct (post w (content_request w url)) as [resp|e]; io_step; [|reflexivity].
  destruct (raise_for_status resp) as [[]|e]; io_step; [|reflexivity].
  destruct (json resp) as [content|e]; io_step; [|reflexivity].
  destruct (dom_of_content content) as [v|e]; reflexivity.
Qed.

Lemma capture_view_run (w : World) (url : str) (viewport : value) :
  exists shot,
    capture_view w url viewport = ([viewport_request w url viewport], Ok shot)
    /\ captured w url viewport shot.
Proof.
  unfold capture_view, try_except, captured. io_step.
  destruct (post w (viewport_request w url viewport)) as [resp|e] eqn:Hpost;
    io_step.
  - destruct (raise_for_status resp) as [[]|e] eqn:Hstatus; io_step;
      (eexists; split; [reflexivity|]);
      repeat split; intros; congruence.
  - eexists; split; [reflexivity|].
    repeat split; intros; congruence.
Qed.

Lemma capture_responsive_views_run (w : World) (url : str) :
  exists m t d : str,
    capture_responsive_views w url
    = ([viewport_request w url mobile_viewport;
        viewport_request w url tablet_viewport;
        viewport_request w url desktop_viewport],
       Ok [(py "mobile", VStr m); (py "tablet", VStr t); (py "desktop", VStr d)])
    /\ captured w url mobile_viewport m
    /\ captured w url tablet_viewport t
    /\ captured w url desktop_viewport d.
Proof.
  destruct (capture_view_run w url mobile_viewport) as (m & Hm & Cm).
  destruct (capture_view_run w url tablet_viewport) as (t & Ht & Ct).
  destruct (capture_view_run w url desktop_viewport) as (d & Hd & Cd).
  exists m, t, d. split; [|auto].
  unfold capture_responsive_views, viewports.
  cbn [capture_loop].
  rewrite Hm. io_step. rewrite Ht. io_step. rewrite Hd. io_step.
  reflexivity.
Qed.

(** *** The extracted style sheet *)

Lemma css_loop_spec (items : list value) :
  forall acc out,
    css_loop items acc = Ok out ->
    out = acc ++ map raw_text (filter is_style_element items).
Proof.
  induction items as [|item items IH]; intros acc out H; simpl in H.
  - injection H as <-. now rewrite app_nil_r.
  - rbind_inv H. destruct item; try discriminate.
    unfold get in Heqr. injection Heqr as <-.
    simpl filter. unfold dict_get_default at 1.
    destruct (eq_str _ (py "style")).
    + cbn [rbind get] in H. apply IH in H. rewrite H.
      rewrite <- app_assoc. reflexivity.
    + now apply IH in H.
Qed.

Lemma strings_of_texts (items : list value) :
  forall ss, strings_of (map raw_text items) = Ok ss ->
             ss = map element_text items.
Proof.
  induction items as [|item items IH]; intros ss H; simpl in H.
  - now injection H as <-.
  - unfold element_text at 1. simpl map.
    destruct (raw_text item); try discriminate.
    rbind_inv H. injection H as <-. f_equal. now apply IH.
Qed.

Lemma no_key_no_value (d : list (str * value)) (k : str) :
  existsb (fun k' => str_eqb k' k) (keys d) = false -> dict_get d k = None.
Proof.
  induction d as [|[k' v] d IH]; simpl; [reflexivity|].
  destruct (str_eqb k' k); simpl; [discriminate | exact IH].
Qed.

Lemma dom_of_content_spec (content v : value) :
  dom_of_content content = Ok v ->
  v = VDict [(py "html", content);
             (py "extracted_css",
              VStr (join [NL]
                      (map element_text
                         (filter is_style_element
                            (returned_elements content)))))].
Proof.
  unfold dom_of_content. intros H.
  rbind_inv H. rename a into has, Heqr into Hhas.
  rbind_inv H. rename a into css_content, Heqr into Hcss.
  rbind_inv H. rename a into css, Heqr into Hjoin.
  injection H as <-.
  unfold join_values in Hjoin. rbind_inv Hjoin. injection Hjoin as <-.
  rename a into ss, Heqr into Hss.
  enough (ss = map element_text
                 (filter is_style_element (returned_elements content)))
    as -> by reflexivity.
  assert (Hnone : css_content = [] -> ss = []).
  { intros ->. simpl in Hss. now injection Hss as <-. }
  destruct has.
  - rbind_inv Hcss. rename a into data, Heqr into Hdata.
    rbind_inv Hcss. rename a into items, Heqr into Hiter.
    pose proof (css_loop_spec items [] css_content Hcss) as Hspec.
    simpl in Hspec.
    destruct content; try discriminate. simpl in Hdata.
    unfold returned_elements.
    destruct (dict_get d (py "data")) as [x|]; [|discriminate].
    injection Hdata as ->.
    destruct data; try discriminate; simpl in Hiter; injection Hiter as <-.
    + destruct s as [|c s]; [|discriminate].
      now apply Hnone.
    + subst css_content. now apply strings_of_texts.
    + destruct d0 as [|[k x] d0]; [|discriminate].
      now apply Hnone.
  - injection Hcss as <-. rewrite (Hnone eq_refl).
    destruct content; simpl in Hhas; try discriminate; try reflexivity.
    injection Hhas as Hhas. unfold returned_elements.
    now rewrite (no_key_no_value d (py "data") Hhas).
Qed.

Lemma key_has_value (d : list (str * value)) (k : str) (v : value) :
  dict_get d k = Some v -> existsb (fun k' => str_eqb k' k) (keys d) = true.
Proof.
  induction d as [|[k' x] d IH]; simpl; [discriminate|].
  destruct (str_eqb k' k); simpl; [reflexivity | exact IH].
Qed.

Lemma css_loop_elements (items : list value) :
  Forall well_formed_element items ->
  forall acc,
    css_loop items acc
    = Ok (acc ++ map raw_text (filter is_style_element items)).
Proof.
  induction 1 as [|item items (d & -> & _) _ IH]; intros acc; simpl.
  - now rewrite app_nil_r.
  - unfold dict_get_default at 1.
    destruct (eq_str _ (py "style")); cbn [rbind].
    + rewrite IH, <- app_assoc. reflexivity.
    + apply IH.
Qed.

Lemma strings_of_elements (items : list value) :
  Forall well_formed_element items ->
  strings_of (map raw_text items) = Ok (map element_text items).
Proof.
  induction 1 as [|item items (d & -> & s & Hs) _ IH]; simpl; [reflexivity|].
  cbn [raw_text] in Hs. cbn [map]. unfold element_text at 1.
  cbn [raw_text strings_of]. rewrite Hs, IH. reflexivity.
Qed.

Lemma dom_of_elements (d : list (str * value)) (items : list value) :
  dict_get d (py "data") = Some (VList items) ->
  Forall well_formed_element items ->
  dom_of_content (VDict d)
  = Ok (VDict [(py "html", VDict d);
               (py "extracted_css",
                VStr (join [NL]
                        (map element_text
                           (filter is_style_element items))))]).
Proof.
  intros Hdata Hitems. unfold dom_of_content. cbn [contains rbind].
  rewrite (key_has_value d (py "data") _ Hdata).
  cbn [subscript]. rewrite Hdata. cbn [rbind iter].
  rewrite (css_loop_elements items Hitems []). cbn [rbind app].
  unfold join_values.
  rewrite strings_of_elements; [reflexivity|].
  apply Forall_forall. intros item Hin. apply filter_In in Hin.
  destruct Hin as [Hin _]. revert item Hin. now apply Forall_forall.
Qed.

(** *** The image of the prompt *)

Lemma image_url_chat_payload (url prompt png : str) :
  image_url (chat_payload url prompt png)
  = Ok (VStr (py "data:image/png;base64," ++ png)).
Proof. reflexivity. Qed.


(** The fallback screenshot is requested only for a desktop entry that is
    missing or empty. *)
Lemma fallback_only_without_desktop (w : World) (url : str) (dc dom : value)
    (shots : dict) (a b : option (list dict)) (req : Request) :
  In req (fst (stream_clone_html_enhanced w url dc dom shots a b)) ->
  req_url req <> invoke_url ->
  req = screenshot_request w url a b 30
  /\ truthy (main_screenshot_of shots) = false.
Proof.
  intros Hin Hurl.
  rewrite (proj1 (stream_unfold w url dc dom shots a b)) in Hin.
  destruct (open_stream_inv w url dc shots a b) as (pre & Hpre & Hrun).
  assert (Hpre' : In req pre ->
                  req = screenshot_request w url a b 30
                  /\ truthy (main_screenshot_of shots) = false).
  { destruct Hpre as [[-> _] | [-> Hfalse]]; simpl; [tauto|].
    intros [<- | []]. now split. }
  destruct Hrun as [[Hfst _] | (prompt & png & _ & Hfst & _)];
    rewrite Hfst in Hin; [auto|].
  apply in_app_or in Hin. destruct Hin as [Hin | [<- | []]]; [auto|].
  now contradiction Hurl.
Qed.


(** *** The two delivery modes *)

(** The extraction step of both modes always yields its three artifacts. *)
Lemma extraction_run (w : World) (url : str) :
  exists (dc dom : value) (shots : dict),
    snd (extract_design_context w url) = Ok dc
    /\ snd (extract_dom_structure w url) = Ok dom
    /\ snd (capture_responsive_views w url) = Ok shots
    /\ extract_design_context w url = ([function_request w url], Ok dc)
    /\ extract_dom_structure w url = ([content_request w url], Ok dom)
    /\ capture_responsive_views w url
       = ([viewport_request w url mobile_viewport;
           viewport_request w url tablet_viewport;
           viewport_request w url desktop_viewport], Ok shots).
Proof.
  destruct (capture_responsive_views_run w url) as (m & t & d & Hrun & _).
  rewrite extract_design_context_run, extract_dom_structure_run, Hrun.
  eexists _, _, _. repeat split; reflexivity.
Qed.


(** A generator of [stream_clone_html_enhanced] that returns has yielded
    the closing tag last. *)
Lemma stream_returns_after_closing_tag (w : World) (url : str)
    (dc dom : value) (shots : dict) (a b : option (list dict)) :
  outcome (snd (stream_clone_html_enhanced w url dc dom shots a b)) = None ->
  exists increments,
    yields (snd (stream_clone_html_enhanced w url dc dom shots a b))
    = increments ++ [closing_tag].
Proof.
  rewrite (proj2 (stream_unfold w url dc dom shots a b)).
  destruct (snd (open_stream w url dc shots a b)) as [resp|e]; [|discriminate].
  rewrite outcome_gen_then.
  destruct (outcome (for_lines (iter_lines resp) (iter_lines_end resp))) eqn:Hloop;
    [discriminate|].
  intros _. rewrite yields_gen_then by exact Hloop. eauto.
Qed.

Lemma strings_of_inv (parts : list value) :
  forall ss, strings_of parts = Ok ss -> parts = map VStr ss.
Proof.
  induction parts as [|p parts IH]; intros ss H; simpl in H.
  - now injection H as <-.
  - destruct p; try discriminate. rbind_inv H. injection H as <-.
    simpl. f_equal. now apply IH.
Qed.

Lemma join_empty_separator (ss : list str) : join [] ss = concat ss.
Proof.
  induction ss as [|s ss IH]; [reflexivity|].
  simpl. destruct ss as [|s' ss]; [now rewrite app_nil_r|].
  now rewrite <- IH.
Qed.

(** *** The injection directives *)

(** What /clone forwards: the directives that are not empty and have a
    truthy value, or nothing at all when none is left. *)
Lemma clone_forwards_valid_tags (tags : option (list dict)) (l : list dict) :
  or_none (filter_tags tags) = Some l ->
  l <> []
  /\ Forall (fun tag => tag <> [] /\ exists v, In v (values tag) /\ truthy v = true) l
  /\ exists given_tags, tags = Some given_tags /\ l = filter valid_tag given_tags.
Proof.
  intros H. destruct tags as [[|tag tags]|]; [discriminate H | | discriminate H].
  unfold filter_tags in H.
  destruct (filter valid_tag (tag :: tags)) as [|x xs] eqn:Hf;
    [discriminate H|].
  unfold or_none, given in H.
  injection H as <-. split; [discriminate|]. split; [|eauto].
  rewrite <- Hf. apply Forall_forall. intros t Ht.
  apply filter_In in Ht. destruct Ht as [_ Hvalid].
  unfold valid_tag in Hvalid. apply andb_prop in Hvalid.
  destruct Hvalid as [Hne Hany]. split.
  - intros ->. discriminate.
  - unfold any in Hany. apply existsb_exists in Hany. exact Hany.
Qed.

(* ===================================================================== *)
(** ** The claims                                                         *)
(* ===================================================================== *)

(** C1 fails as stated: on a 200 answer the last increment is a line feed
    followed by the closing tag, not the bare tag; and a 201 answer, which is
    a success status, yields nothing and raises. *)
Lemma C1_counterexample :
  yields (snd (stream_on (model_answers 200 [line_A; line_B; line_DONE])))
  <> [VStr (py "A"); VStr (py "B"); VStr (py "</html>")]
  /\ snd (stream_on (model_answers 201 [line_A; line_B; line_DONE]))
     = Throw (HTTPException 201 (py "body")).
Proof.
  split.
  - vm_compute. discriminate.
  - vm_compute. reflexivity.
Qed.

(** C1 (amended): on a 200 answer the three example lines yield "A", "B" and
    then a line feed followed by the closing tag, and the generator returns,
    whatever follows the [DONE] line and however the connection ends.  In
    general, on a 200 answer whose lines up to [DONE] (or up to a clean
    close) all pass the loop, the increments of those lines are followed by
    exactly one final line feed and closing tag, and the generator returns;
    and whenever the generator returns, that tag is its last increment. *)
Theorem C1_stream_ends_with_closing_tag :
  (forall (rest : list bytes) (ending : option exn),
      let w := world (Ok (event_stream 200
                            (line_A :: line_B :: line_DONE :: rest) ending))
                     unreachable in
      yields (snd (stream_on w))
      = [VStr (py "A"); VStr (py "B"); VStr (NL :: py "</html>")]
      /\ outcome (snd (stream_on w)) = None)
  /\
  (forall (w : World) (url : str) (dc dom : value) (shots : dict)
          (a b : option (list dict)) (req : Request) (resp : Response),
      In req (fst (stream_clone_html_enhanced w url dc dom shots a b)) ->
      req_url req = invoke_url ->
      post w req = Ok resp ->
      status_code resp = 200 ->
      let g := snd (stream_clone_html_enhanced w url dc dom shots a b) in
      (forall (pre : list bytes) (done : bytes) (rest : list bytes),
          iter_lines resp = pre ++ done :: rest ->
          Forall passes pre -> loop_body done = Break ->
          yields g = flat_map emitted pre ++ [closing_tag]
          /\ outcome g = None)
      /\ (Forall passes (iter_lines resp) -> iter_lines_end resp = None ->
          yields g = flat_map emitted (iter_lines resp) ++ [closing_tag]
          /\ outcome g = None)
      /\ (outcome g = None ->
          exists increments, yields g = increments ++ [closing_tag])).
Proof.
  split.
  - intros rest ending. split; vm_compute; reflexivity.
  - intros w url dc dom shots a b req resp Hin Hurl Hpost Hstatus g.
    destruct (stream_unfold w url dc dom shots a b) as [Hfst Hsnd].
    rewrite Hfst in Hin.
    pose proof (open_stream_answer w url dc shots a b req resp Hin Hurl Hpost) as Hopen.
    rewrite Hstatus in Hopen. simpl in Hopen.
    assert (Hlast : outcome g = None ->
                    exists increments, yields g = increments ++ [closing_tag])
      by apply stream_returns_after_closing_tag.
    subst g. rewrite Hsnd, Hopen in *. split; [|split; [|exact Hlast]].
    + intros pre done rest Hlines Hpre Hdone. rewrite Hlines.
      destruct (for_lines_break pre done rest (iter_lines_end resp) Hpre Hdone)
        as [Hy Ho].
      rewrite yields_gen_then, outcome_gen_then, Hy, Ho by exact Ho.
      now split.
    + intros Hall Hend. rewrite Hend.
      destruct (for_lines_close (iter_lines resp) Hall) as [Hy Ho].
      rewrite yields_gen_then, outcome_gen_then, Hy, Ho by exact Ho.
      now split.
Qed.

Lemma C1_stream_ends_with_closing_tag_witness :
  yields (snd (stream_on (model_answers 200 [line_A; line_not_json; line_B])))
  = [VStr (py "A"); VStr (py "B"); closing_tag]
  /\ outcome (snd (stream_on (model_answers 200 [line_A; line_not_json; line_B])))
     = None.
Proof.
  pose (w := model_answers 200 [line_A; line_not_json; line_B]).
  pose (resp := event_stream 200 [line_A; line_not_json; line_B] None).
  pose (req := chat_request w
                 (chat_payload site
                    (system_prompt w (VStr (py "Untitled")) 0 VNone VNone)
                    (py "aGk="))).
  assert (Hin : In req (fst (stream_on w))) by (left; reflexivity).
  assert (Hpasses : Forall passes (iter_lines resp)).
  { apply Forall_cons; [right; eexists; vm_compute; reflexivity|].
    apply Forall_cons; [left; vm_compute; reflexivity|].
    apply Forall_cons; [right; eexists; vm_compute; reflexivity|].
    apply Forall_nil. }
  exact (proj1 (proj2 (proj2 C1_stream_ends_with_closing_tag
                         w site (VDict []) (VDict []) shots None None req resp
                         Hin eq_refl eq_refl eq_refl))
               Hpasses eq_refl).
Defined.

(** C2: when the model endpoint answers the request of the generator with a
    status outside 200..299, the generator raises [HTTPException] with that
    status and the body of the answer, before yielding anything: no text
    increment and no closing tag. *)
Theorem C2_non_success_status_raises_before_any_increment
    (w : World) (url : str) (dc dom : value) (shots : dict)
    (a b : option (list dict)) (req : Request) (resp : Response) :
  In req (fst (stream_clone_html_enhanced w url dc dom shots a b)) ->
  req_url req = invoke_url ->
  post w req = Ok resp ->
  ~ (200 <= status_code resp < 300) ->
  snd (stream_clone_html_enhanced w url dc dom shots a b)
  = Throw (HTTPException (status_code resp) (text resp))
  /\ yields (snd (stream_clone_html_enhanced w url dc dom shots a b)) = [].
Proof.
  intros Hin Hurl Hpost Hstatus.
  destruct (stream_unfold w url dc dom shots a b) as [Hfst Hsnd].
  rewrite Hfst in Hin.
  rewrite Hsnd, (open_stream_answer w url dc shots a b req resp Hin Hurl Hpost).
  destruct (Z.eqb_spec (status_code resp) 200) as [H200 | _]; [lia|].
  now split.
Qed.

Lemma C2_non_success_status_raises_before_any_increment_witness :
  snd (stream_on (model_answers 503 [line_A; line_DONE]))
  = Throw (HTTPException 503 (py "body"))
  /\ yields (snd (stream_on (model_answers 503 [line_A; line_DONE]))) = [].
Proof.
  pose (w := model_answers 503 [line_A; line_DONE]).
  pose (req := chat_request w
                 (chat_payload site
                    (system_prompt w (VStr (py "Untitled")) 0 VNone VNone)
                    (py "aGk="))).
  assert (Hin : In req (fst (stream_on w))) by (left; reflexivity).
  apply (C2_non_success_status_raises_before_any_increment
           w site (VDict []) (VDict []) shots None None req
           (event_stream 503 [line_A; line_DONE] None)
           Hin eq_refl eq_refl).
  simpl. lia.
Defined.

(** C3 does not hold on the code: a record whose [choices] list is empty
    lacks the expected path, but subscripting it raises [IndexError], which
    the loop does not catch; the increment "B" of the next line and the
    closing tag are never yielded.  The line that is not JSON and the record
    without a [choices] key, by contrast, are passed over. *)
Theorem C3_empty_choices_line_ends_the_stream :
  loop_body line_not_json = Continue
  /\ loop_body line_no_choices = Continue
  /\ yields (snd (stream_on (model_answers 200
                               [line_A; line_not_json; line_B; line_DONE])))
     = [VStr (py "A"); VStr (py "B"); closing_tag]
  /\ loop_body line_empty_choices = Fail IndexError
  /\ yields (snd (stream_on (model_answers 200
                               [line_A; line_empty_choices; line_B; line_DONE])))
     = [VStr (py "A")]
  /\ outcome (snd (stream_on (model_answers 200
                                [line_A; line_empty_choices; line_B; line_DONE])))
     = Some IndexError.
Proof. repeat split; vm_compute; reflexivity. Qed.

(** C4: the result has exactly the keys mobile, tablet and desktop, in this
    order; the string under each key is read off the answer to that
    viewport's own request: "Error: " and the message when the request or
    its status check fails, the base64 text of the body otherwise.  So a
    failure on one viewport leaves the other two entries as they would be
    without it. *)
Theorem C4_three_keys_and_independent_viewports (w : World) (url : str) :
  exists m t d : str,
    snd (capture_responsive_views w url)
    = Ok [(py "mobile", VStr m); (py "tablet", VStr t); (py "desktop", VStr d)]
    /\ captured w url mobile_viewport m
    /\ captured w url tablet_viewport t
    /\ captured w url desktop_viewport d.
Proof.
  destruct (capture_responsive_views_run w url) as (m & t & d & Hrun & H).
  exists m, t, d. now rewrite Hrun.
Qed.

Lemma C4_three_keys_and_independent_viewports_witness :
  snd (capture_responsive_views (world (Raise JSONDecodeError) tablet_down) site)
  = Ok [(py "mobile", VStr (py "aGk="));
        (py "tablet", VStr (py "Error: timed out"));
        (py "desktop", VStr (py "aGk="))].
Proof.
  pose (w := world (Raise JSONDecodeError) tablet_down).
  destruct (C4_three_keys_and_independent_viewports w site)
    as (m & t & d & Hrun & Cm & Ct & Cd).
  fold w. rewrite Hrun.
  destruct Cm as (_ & _ & Cm). destruct Ct as (Ct & _). destruct Cd as (_ & _ & Cd).
  rewrite (Cm (scraped 200 "hi"%string (Raise JSONDecodeError)) eq_refl eq_refl).
  rewrite (Ct (RequestException (py "timed out")) eq_refl).
  rewrite (Cd (scraped 200 "hi"%string (Raise JSONDecodeError)) eq_refl eq_refl).
  reflexivity.
Defined.

(** C5: whenever [extract_dom_structure] returns its success mapping, the
    call returned the document under [html], and [extracted_css] is the text
    of the style elements of that document, in the order of the answer,
    joined by line feeds; without style elements it is the empty string.
    The function does return this mapping for every answer whose elements
    are mappings with a string (or no) text. *)
Theorem C5_extracted_css_joins_style_texts :
  (forall (w : World) (url : str) (content : value) (css : str),
      snd (extract_dom_structure w url)
      = Ok (VDict [(py "html", content); (py "extracted_css", VStr css)]) ->
      call_returns w (content_request w url) content
      /\ css = join [NL] (map element_text
                            (filter is_style_element
                               (returned_elements content)))
      /\ (filter is_style_element (returned_elements content) = [] ->
          css = []))
  /\
  (forall (w : World) (url : str) (d : list (str * value))
          (items : list value),
      call_returns w (content_request w url) (VDict d) ->
      dict_get d (py "data") = Some (VList items) ->
      Forall well_formed_element items ->
      snd (extract_dom_structure w url)
      = Ok (VDict [(py "html", VDict d);
                   (py "extracted_css",
                    VStr (join [NL]
                            (map element_text
                               (filter is_style_element items))))])).
Proof.
  split.
  - intros w url content css.
    rewrite extract_dom_structure_run. cbn [snd]. intros H.
    destruct (post w (content_request w url)) as [resp|] eqn:Hpost;
      [|discriminate].
    destruct (raise_for_status resp) as [[]|] eqn:Hstatus; [|discriminate].
    destruct (json resp) as [content'|] eqn:Hjson; [|discriminate].
    destruct (dom_of_content content') as [v|] eqn:Hdom; [|discriminate].
    apply dom_of_content_spec in Hdom. subst v.
    injection H as <- <-.
    split; [exists resp; auto|]. split; [reflexivity|].
    intros ->. reflexivity.
  - intros w url d items (resp & Hpost & Hstatus & Hjson) Hdata Hitems.
    rewrite extract_dom_structure_run. cbn [snd].
    rewrite Hpost, Hstatus, Hjson, (dom_of_elements d items Hdata Hitems).
    reflexivity.
Qed.

Lemma C5_extracted_css_joins_style_texts_witness :
  snd (extract_dom_structure
         (world (Raise JSONDecodeError) (answers_json styled_page)) site)
  = Ok (VDict [(py "html", styled_page);
               (py "extracted_css", VStr (py "a{}" ++ [NL] ++ py "b{}"))]).
Proof.
  assert (Hitems : Forall well_formed_element (returned_elements styled_page)).
  { repeat (apply Forall_cons; [eexists; split; [reflexivity|]; eexists; reflexivity|]).
    apply Forall_nil. }
  apply (proj2 C5_extracted_css_joins_style_texts
           (world (Raise JSONDecodeError) (answers_json styled_page)) site
           _ (returned_elements styled_page)).
  - eexists. repeat split; reflexivity.
  - reflexivity.
  - exact Hitems.
Defined.

(** C6 does not hold on the code: /clone filters the directives, but
    /clone-complete hands them to the generator as they came.  With a body
    whose only script directive is empty, and captures that come back empty
    so that the fallback screenshot is taken, /clone-complete sends the
    empty directive to the screenshot service, where /clone sends none. *)
Theorem C6_clone_complete_forwards_empty_directive :
  fst (clone_site_complete blank_world site empty_directive None)
  = [function_request blank_world site;
     content_request blank_world site;
     viewport_request blank_world site mobile_viewport;
     viewport_request blank_world site tablet_viewport;
     viewport_request blank_world site desktop_viewport;
     screenshot_request blank_world site (Some [[]]) None 30;
     chat_request blank_world
       (chat_payload site
          (system_prompt blank_world (VStr (py "Untitled")) 0 VNone VNone) [])]
  /\ subscript (req_json (screenshot_request blank_world site (Some [[]]) None 30))
               (VStr (py "addScriptTag"))
     = Ok (VList [VDict []])
  /\ fst (clone_site_enhanced blank_world site empty_directive None)
     = [function_request blank_world site;
        content_request blank_world site;
        viewport_request blank_world site mobile_viewport;
        viewport_request blank_world site tablet_viewport;
        viewport_request blank_world site desktop_viewport;
        screenshot_request blank_world site None None 30;
        chat_request blank_world
          (chat_payload site
             (system_prompt blank_world (VStr (py "Untitled")) 0 VNone VNone) [])]
  /\ subscript (req_json (screenshot_request blank_world site None None 30))
               (VStr (py "addScriptTag"))
     = Raise (KeyError (VStr (py "addScriptTag"))).
Proof.
  split; [vm_compute; reflexivity|].
  split; [reflexivity|].
  split; [vm_compute; reflexivity|].
  reflexivity.
Qed.





(** C9 fails as stated: the scraping service answers with status 200 and a
    JSON document that has an [error] key; the call succeeds and the result
    of [extract_design_context], the payload itself, has an error field. *)
Lemma C9_counterexample :
  call_returns (world (Raise JSONDecodeError) (answers_json quota_error))
               (function_request
                  (world (Raise JSONDecodeError) (answers_json quota_error)) site)
               quota_error
  /\ snd (extract_design_context
            (world (Raise JSONDecodeError) (answers_json quota_error)) site)
     = Ok quota_error
  /\ contains quota_error (py "error") = Ok true.
Proof.
  split; [|split].
  - eexists. repeat split; reflexivity.
  - reflexivity.
  - reflexivity.
Qed.

(** C9 (amended): neither function raises.  When the call fails the result
    is the mapping with the single key [error] and a message string.  When
    the call succeeds, [extract_design_context] returns the payload of the
    service unchanged (with an error field exactly when the payload has
    one), and [extract_dom_structure] returns either the mapping with the
    keys [html] and [extracted_css], which has no error field, or, when the
    payload does not have the expected shape, the error mapping. *)
Theorem C9_extraction_never_raises (w : World) (url : str) :
  (exists v,
      snd (extract_design_context w url) = Ok v
      /\ (forall e, call_fails w (function_request w url) e ->
                    v = error_shaped (py "Failed to extract design context: ") w e)
      /\ (forall payload, call_returns w (function_request w url) payload ->
                          v = payload))
  /\
  (exists v,
      snd (extract_dom_structure w url) = Ok v
      /\ (forall e, call_fails w (content_request w url) e ->
                    v = error_shaped (py "Failed to extract DOM: ") w e)
      /\ (forall content, call_returns w (content_request w url) content ->
             (exists css,
                 v = VDict [(py "html", content); (py "extracted_css", VStr css)]
                 /\ contains v (py "error") = Ok false)
             \/ (exists e, v = error_shaped (py "Failed to extract DOM: ") w e))).
Proof.
  split.
  - rewrite extract_design_context_run. eexists. split; [reflexivity|]. split.
    + intros e [H | [(resp & H & Hs) | (resp & H & Hs & Hj)]]; rewrite H;
        [reflexivity | now rewrite Hs | now rewrite Hs, Hj].
    + intros payload (resp & H & Hs & Hj). now rewrite H, Hs, Hj.
  - rewrite extract_dom_structure_run. eexists. split; [reflexivity|]. split.
    + intros e [H | [(resp & H & Hs) | (resp & H & Hs & Hj)]]; rewrite H;
        [reflexivity | now rewrite Hs | now rewrite Hs, Hj].
    + intros content (resp & H & Hs & Hj). rewrite H, Hs, Hj.
      destruct (dom_of_content content) as [v|e] eqn:Hdom; [left | right; eauto].
      unfold dom_of_content in Hdom.
      rbind_inv Hdom; rename a into has.
      rbind_inv Hdom; rename a into css_content.
      rbind_inv Hdom; rename a into css.
      injection Hdom as <-. exists css. split; reflexivity.
Qed.

Lemma C9_extraction_never_raises_witness :
  snd (extract_design_context (world (Raise JSONDecodeError) unreachable) site)
  = Ok (error_shaped (py "Failed to extract design context: ")
          (world (Raise JSONDecodeError) unreachable)
          (RequestException (py "connection refused"))).
Proof.
  destruct (C9_extraction_never_raises
              (world (Raise JSONDecodeError) unreachable) site)
    as [(v & Hv & Hfail & _) _].
  rewrite Hv. f_equal.
  apply Hfail. left. reflexivity.
Defined.



(* ===================================================================== *)
(** ** Further properties of the module                                   *)
(* ===================================================================== *)

Lemma str_eqb_true (a b : str) : str_eqb a b = true -> a = b.
Proof.
  revert b. induction a as [|x a IH]; destruct b as [|y b]; simpl;
    try discriminate; [reflexivity|].
  intros H. apply andb_prop in H. destruct H as [Hxy Hab].
  apply N.eqb_eq in Hxy. subst. f_equal. auto.
Qed.

Lemma str_eqb_refl (a : str) : str_eqb a a = true.
Proof. induction a as [|x a IH]; simpl; [reflexivity|]. now rewrite N.eqb_refl. Qed.




Lemma for_lines_broken (raws : list bytes) (e : exn) :
  Forall passes raws ->
  yields (for_lines raws (Some e)) = flat_map emitted raws
  /\ outcome (for_lines raws (Some e)) = Some e.
Proof.
  intros Hraws. induction Hraws as [|raw raws Hraw _ IH]; simpl.
  - now split.
  - unfold emitted. destruct Hraw as [H | [t H]]; rewrite H; simpl.
    + exact IH.
    + destruct IH as [IHy IHo]. now rewrite IHy, IHo.
Qed.

Lemma stream_body_on_200 (w : World) (url : str) (dc dom : value)
    (shots : dict) (a b : option (list dict)) (req : Request) (resp : Response) :
  In req (fst (stream_clone_html_enhanced w url dc dom shots a b)) ->
  req_url req = invoke_url ->
  post w req = Ok resp ->
  status_code resp = 200 ->
  snd (stream_clone_html_enhanced w url dc dom shots a b)
  = gen_then (for_lines (iter_lines resp) (iter_lines_end resp))
             (Yield closing_tag Return).
Proof.
  intros Hin Hurl Hpost Hstatus.
  destruct (stream_unfold w url dc dom shots a b) as [Hfst Hsnd].
  rewrite Hfst in Hin.
  rewrite Hsnd, (open_stream_answer w url dc shots a b req resp Hin Hurl Hpost).
  now rewrite Hstatus.
Qed.

Lemma stream_raises_on_other_status (w : World) (url : str) (dc dom : value)
    (shots : dict) (a b : option (list dict)) (req : Request) (resp : Response) :
  In req (fst (stream_clone_html_enhanced w url dc dom shots a b)) ->
  req_url req = invoke_url ->
  post w req = Ok resp ->
  status_code resp <> 200 ->
  snd (stream_clone_html_enhanced w url dc dom shots a b)
  = Throw (HTTPException (status_code resp) (text resp)).
Proof.
  intros Hin Hurl Hpost Hstatus.
  destruct (stream_unfold w url dc dom shots a b) as [Hfst Hsnd].
  rewrite Hfst in Hin.
  rewrite Hsnd, (open_stream_answer w url dc shots a b req resp Hin Hurl Hpost).
  destruct (Z.eqb_spec (status_code resp) 200); [contradiction | reflexivity].
Qed.

Lemma grab_screenshot_run (w : World) (url : str)
    (a b : option (list dict)) (timeout : Z) :
  grab_screenshot w url a b timeout
  = ([screenshot_request w url a b timeout],
     match post w (screenshot_request w url a b timeout) with
     | Raise e => Raise e
     | Ok resp =>
         match raise_for_status resp with
         | Raise e => Raise e
         | Ok _ => Ok (content resp)
         end
     end).
Proof.
  unfold grab_screenshot. io_step.
  destruct (post w _) as [resp|e]; io_step; [|reflexivity].
  destruct (raise_for_status resp) as [[]|e]; reflexivity.
Qed.

Lemma open_stream_fallback_fails (w : World) (url : str) (dc : value)
    (shots : dict) (a b : option (list dict)) (e : exn) :
  truthy (main_screenshot_of shots) = false ->
  fallback_fails w url a b e ->
  open_stream w url dc shots a b
  = ([screenshot_request w url a b 30], Raise e).
Proof.
  unfold open_stream, main_screenshot_of. intros Hmain Hfail.
  rewrite Hmain. cbn [negb]. rewrite grab_screenshot_run.
  destruct Hfail as [H | (resp & H & Hs)]; rewrite H; [|rewrite Hs];
    reflexivity.
Qed.

Lemma open_stream_fallback_image (w : World) (url : str) (dc : value)
    (shots : dict) (a b : option (list dict)) (shot : Response) :
  truthy (main_screenshot_of shots) = false ->
  post w (screenshot_request w url a b 30) = Ok shot ->
  raise_for_status shot = Ok tt ->
  (fst (open_stream w url dc shots a b) = [screenshot_request w url a b 30]
   /\ exists e, snd (open_stream w url dc shots a b) = Raise e)
  \/ exists prompt,
       fst (open_stream w url dc shots a b)
       = [screenshot_request w url a b 30;
          chat_request w (chat_payload url prompt (b64encode (content shot)))].
Proof.
  unfold open_stream, main_screenshot_of. intros Hmain Hpost Hstatus.
  rewrite Hmain. cbn [negb]. rewrite grab_screenshot_run, Hpost, Hstatus.
  io_step.
  repeat (io_case; [|solve [left; eauto]]).
  right. eexists.
  match goal with
  | |- context [post w (chat_request w ?p)] =>
      destruct (post w (chat_request w p)) as [resp|e]; io_step;
        [|reflexivity]
  end.
  destruct (status_code resp =? 200); reflexivity.
Qed.

Lemma screenshot_payload_keys
    (w : World) (url : str) (a b : option (list dict)) (timeout : Z) :
  let payload := req_json (screenshot_request w url a b timeout) in
  subscript payload (VStr (py "url")) = Ok (VStr url)
  /\ subscript payload (VStr (py "options"))
     = Ok (VDict [(py "fullPage", VBool true); (py "type", VStr (py "png"));
                  (py "quality", VInt 90)])
  /\ subscript payload (VStr (py "addScriptTag"))
     = (if given a then Ok (tags_value a)
        else Raise (KeyError (VStr (py "addScriptTag"))))
  /\ subscript payload (VStr (py "addStyleTag"))
     = (if given b then Ok (tags_value b)
        else Raise (KeyError (VStr (py "addStyleTag"))))
  /\ len payload
     = Ok (2 + (if given a then 1 else 0) + (if given b then 1 else 0)).
Proof.
  destruct a as [[|ta la]|], b as [[|tb lb]|]; repeat split.
Qed.

Lemma extraction_requests_not_invoke (w : World) (url : str) (req : Request) :
  In req (extraction_requests w url) -> req_url req <> invoke_url.
Proof.
  intros Hin.
  repeat (destruct Hin as [<- | Hin]; [apply browserless_not_invoke|]).
  destruct Hin.
Qed.

Lemma try_body_full (w : World) (url : str) (a b : option (list dict)) :
  exists (dc dom : value) (shots : dict),
    snd (extract_design_context w url) = Ok dc
    /\ snd (extract_dom_structure w url) = Ok dom
    /\ snd (capture_responsive_views w url) = Ok shots
    /\ try_body w url a b
       = (extraction_requests w url
          ++ fst (stream_clone_html_enhanced w url dc dom shots
                    (or_none a) (or_none b)),
          snd (stream_clone_html_enhanced w url dc dom shots
                 (or_none a) (or_none b))).
Proof.
  destruct (extraction_run w url)
    as (dc & dom & shots & H1 & H2 & H3 & E1 & E2 & E3).
  exists dc, dom, shots. repeat (split; [assumption|]).
  unfold try_body. rewrite E1, E2, E3. unfold gbind.
  destruct (stream_clone_html_enhanced w url dc dom shots (or_none a) (or_none b)).
  reflexivity.
Qed.

Lemma clone_site_enhanced_full (w : World) (url : str)
    (a b : option (list dict)) :
  clone_site_enhanced w url a b
  = (fst (try_body w url (filter_tags a) (filter_tags b)),
     gen_except (snd (try_body w url (filter_tags a) (filter_tags b)))
                (fun exc => Yield (error_chunk w exc) Return)).
Proof.
  unfold clone_site_enhanced, generator.
  now destruct (try_body w url (filter_tags a) (filter_tags b)).
Qed.

Lemma clone_site_complete_run (w : World) (url : str)
    (a b : option (list dict)) :
  exists (dc dom : value) (shots : dict),
    snd (extract_design_context w url) = Ok dc
    /\ snd (extract_dom_structure w url) = Ok dom
    /\ snd (capture_responsive_views w url) = Ok shots
    /\ clone_site_complete w url a b
       = (extraction_requests w url
          ++ fst (stream_clone_html_enhanced w url dc dom shots a b),
          complete_result w url dc dom shots
            (snd (stream_clone_html_enhanced w url dc dom shots a b))).
Proof.
  destruct (extraction_run w url)
    as (dc & dom & shots & H1 & H2 & H3 & E1 & E2 & E3).
  exists dc, dom, shots. repeat (split; [assumption|]).
  unfold clone_site_complete, try_except, complete_result, analysis_summary.
  rewrite E1, E2, E3. io_step.
  destruct (stream_clone_html_enhanced w url dc dom shots a b) as [sent g].
  cbn [fst snd].
  destruct (drive g) as [parts|e]; io_step;
    [|now rewrite !app_nil_r].
  destruct (join_values [] parts) as [html|e]; io_step;
    [|now rewrite !app_nil_r].
  repeat match goal with
         | |- context [match ?r with Ok _ => _ | Raise _ => _ end] =>
             destruct r as [?|?]; io_step; cbn [rbind]
         end; cbn; rewrite ?app_nil_r; reflexivity.
Qed.

Lemma or_none_has_no_effect (w : World) (url : str)
    (a b : option (list dict)) (timeout : Z) :
  screenshot_request w url (or_none a) (or_none b) timeout
  = screenshot_request w url a b timeout.
Proof. destruct a as [[|ta la]|], b as [[|tb lb]|]; reflexivity. Qed.

Lemma stream_or_none (w : World) (url : str) (dc dom : value) (shots : dict)
    (a b : option (list dict)) :
  stream_clone_html_enhanced w url dc dom shots (or_none a) (or_none b)
  = stream_clone_html_enhanced w url dc dom shots a b.
Proof.
  unfold stream_clone_html_enhanced, open_stream, grab_screenshot.
  now rewrite or_none_has_no_effect.
Qed.

Lemma strings_of_non_string (parts : list value) (v : value) :
  In v parts -> (forall s, v <> VStr s) -> strings_of parts = Raise TypeError.
Proof.
  intros Hin Hv. induction parts as [|p parts IH]; [destruct Hin|].
  simpl. destruct Hin as [-> | Hin].
  - destruct v; try reflexivity. now contradiction (Hv s).
  - destruct p; try reflexivity. now rewrite (IH Hin).
Qed.

Lemma strings_of_map_VStr (ss : list str) : strings_of (map VStr ss) = Ok ss.
Proof. induction ss as [|s ss IH]; simpl; [reflexivity | now rewrite IH]. Qed.

Lemma open_stream_defaults (w : World) (url : str) (d : list (str * value))
    (shots : dict) (a b : option (list dict)) :
  truthy (main_screenshot_of shots) = true ->
  dict_get d (py "title") = None ->
  dict_get d (py "elementMap") = None ->
  dict_get d (py "viewport") = None ->
  fst (open_stream w url (VDict d) shots a b)
  = [chat_request w
       (chat_payload url
          (system_prompt w (VStr (py "Untitled")) 0 VNone VNone)
          (fmt w (main_screenshot_of shots)))].
Proof.
  unfold open_stream, main_screenshot_of. intros Hmain Ht He Hv.
  rewrite Hmain. cbn [negb]. unfold get. rewrite Ht, He, Hv.
  io_step. cbn [len length dict_get Z.of_nat]. io_step.
  destruct (post w _) as [resp|e]; io_step; [|reflexivity].
  destruct (status_code resp =? 200); reflexivity.
Qed.

Lemma b64encode_empty (data : bytes) :
  b64encode data = [] <-> data = EmptyString.
Proof.
  split; [|now intros ->].
  unfold b64encode, byte_values. destruct data as [|c data]; [reflexivity|].
  simpl. destruct (map N_of_ascii (list_ascii_of_string data)) as [|x [|y l]];
    discriminate.
Qed.

Lemma filter_twice {A} (f : A -> bool) (l : list A) :
  filter f (filter f l) = filter f l.
Proof.
  induction l as [|x l IH]; [reflexivity|].
  simpl. destruct (f x) eqn:Hx; simpl; rewrite ?Hx, IH; reflexivity.
Qed.

Lemma valid_tag_any (tag : dict) : valid_tag tag = any (values tag).
Proof. destruct tag as [|[k v] tag]; reflexivity. Qed.

Lemma css_loop_non_mapping (items : list value) (item : value) :
  In item items -> (forall m, item <> VDict m) ->
  forall acc, css_loop items acc = Raise AttributeError.
Proof.
  intros Hin Hitem. induction items as [|x items IH]; [destruct Hin|].
  intros acc. simpl. destruct Hin as [-> | Hin].
  - destruct item; try reflexivity. now contradiction (Hitem d).
  - destruct x; try reflexivity.
    cbn [get rbind]. destruct (eq_str _ (py "style")); cbn [rbind]; now apply IH.
Qed.

Lemma css_loop_mappings (items : list value) :
  Forall (fun x => exists m, x = VDict m) items ->
  forall acc,
    css_loop items acc
    = Ok (acc ++ map raw_text (filter is_style_element items)).
Proof.
  induction 1 as [|x items [m ->] _ IH]; intros acc; simpl.
  - now rewrite app_nil_r.
  - unfold dict_get_default at 1.
    destruct (eq_str _ (py "style")); cbn [rbind].
    + rewrite IH, <- app_assoc. reflexivity.
    + apply IH.
Qed.

Lemma for_lines_fail (pre : list bytes) (bad : bytes) (rest : list bytes)
    (ending : option exn) (e : exn) :
  Forall passes pre -> loop_body bad = Fail e ->
  yields (for_lines (pre ++ bad :: rest) ending) = flat_map emitted pre
  /\ outcome (for_lines (pre ++ bad :: rest) ending) = Some e.
Proof.
  intros Hpre Hbad. induction Hpre as [|raw pre Hraw _ IH]; simpl.
  - now rewrite Hbad.
  - unfold emitted. destruct Hraw as [H | [t H]]; rewrite H; simpl.
    + exact IH.
    + destruct IH as [IHy IHo]. now rewrite IHy, IHo.
Qed.

Lemma stream_requests_kinds (w : World) (url : str) (dc dom : value)
    (shots : dict) (a b : option (list dict)) (req : Request) :
  In req (fst (stream_clone_html_enhanced w url dc dom shots a b)) ->
  scraping_call w req \/ model_call w req.
Proof.
  intros Hin. rewrite (proj1 (stream_unfold _ _ _ _ _ _ _)) in Hin.
  destruct (open_stream_inv w url dc shots a b) as (pre & Hpre & Hrun).
  assert (Hp : In req pre -> scraping_call w req).
  { destruct Hpre as [[-> _] | [-> _]]; [intros []|].
    intros [<- | []]. split; [|repeat split].
    exists (py "/screenshot"). split; [simpl; tauto | reflexivity]. }
  destruct Hrun as [[Hfst _] | (prompt & png & _ & Hfst & _)];
    rewrite Hfst in Hin; [auto|].
  apply in_app_or in Hin. destruct Hin as [Hin | [<- | []]]; [auto|].
  right. repeat split.
Qed.

Lemma extraction_requests_kinds (w : World) (url : str) (req : Request) :
  In req (extraction_requests w url) -> scraping_call w req.
Proof.
  intros Hin.
  destruct Hin as [<- | [<- | Hin]].
  - split; [|repeat split].
    exists (py "/function"). split; [simpl; tauto | reflexivity].
  - split; [|repeat split].
    exists (py "/content"). split; [simpl; tauto | reflexivity].
  - repeat (destruct Hin as [<- | Hin];
            [split; [|repeat split];
             exists (py "/screenshot"); split; [simpl; tauto | reflexivity]|]).
    destruct Hin.
Qed.


(** X2: When the desktop entry is missing or empty and the fallback
    screenshot fails (the request raises or its status is an error status),
    the generator has sent that one request, raises the same exception and
    yields nothing: the model is never contacted. *)
Theorem X2_fallback_failure_stops_the_generator
    (w : World) (url : str) (dc dom : value) (shots : dict)
    (a b : option (list dict)) (e : exn) :
  truthy (main_screenshot_of shots) = false ->
  fallback_fails w url a b e ->
  stream_clone_html_enhanced w url dc dom shots a b
  = ([screenshot_request w url a b 30], Throw e).
Proof.
  intros Hmain Hfail. unfold stream_clone_html_enhanced.
  now rewrite (open_stream_fallback_fails w url dc shots a b e Hmain Hfail).
Qed.

Lemma X2_fallback_failure_stops_the_generator_witness :
  stream_clone_html_enhanced (model_answers 200 [line_A]) site
    (VDict []) (VDict []) [] None None
  = ([screenshot_request (model_answers 200 [line_A]) site None None 30],
     Throw (RequestException (py "connection refused"))).
Proof.
  apply X2_fallback_failure_stops_the_generator.
  - reflexivity.
  - left. reflexivity.
Defined.

(** X3: When the desktop entry is missing or empty and the fallback
    screenshot succeeds, the image of the request to the model is the data
    URI with the base64 text of the body of that screenshot. *)
Theorem X3_fallback_body_becomes_the_image
    (w : World) (url : str) (dc dom : value) (shots : dict)
    (a b : option (list dict)) (shot : Response) (req : Request) :
  truthy (main_screenshot_of shots) = false ->
  post w (screenshot_request w url a b 30) = Ok shot ->
  raise_for_status shot = Ok tt ->
  In req (fst (stream_clone_html_enhanced w url dc dom shots a b)) ->
  req_url req = invoke_url ->
  image_url (req_json req)
  = Ok (VStr (py "data:image/png;base64," ++ b64encode (content shot))).
Proof.
  intros Hmain Hpost Hstatus Hin Hurl.
  rewrite (proj1 (stream_unfold w url dc dom shots a b)) in Hin.
  assert (Hshot : req <> screenshot_request w url a b 30).
  { intros ->. revert Hurl. apply browserless_not_invoke. }
  destruct (open_stream_fallback_image w url dc shots a b shot Hmain Hpost Hstatus)
    as [[Hfst _] | [prompt Hfst]]; rewrite Hfst in Hin.
  - destruct Hin as [<- | []]. now contradiction Hshot.
  - destruct Hin as [<- | [<- | []]]; [now contradiction Hshot|].
    reflexivity.
Qed.

Lemma X3_fallback_body_becomes_the_image_witness :
  image_url (req_json (default_chat_request hi_world (py "aGk=")))
  = Ok (VStr (py "data:image/png;base64,aGk=")).
Proof.
  apply (X3_fallback_body_becomes_the_image
           hi_world site (VDict []) (VDict []) [] None None
           (scraped 200 "hi"%string (Raise JSONDecodeError))
           (default_chat_request hi_world (py "aGk="))).
  - reflexivity.
  - reflexivity.
  - reflexivity.
  - right. left. reflexivity.
  - reflexivity.
Defined.

(** X4: With the screenshot set that [capture_responsive_views] returns, the
    generator asks for the fallback screenshot exactly when the desktop
    capture succeeded with an empty body. *)
Theorem X4_fallback_is_taken_exactly_for_an_empty_desktop_capture
    (w : World) (url : str) :
  exists shots : dict,
    snd (capture_responsive_views w url) = Ok shots
    /\ forall (dc dom : value) (a b : option (list dict)),
         In (screenshot_request w url a b 30)
            (fst (stream_clone_html_enhanced w url dc dom shots a b))
         <-> exists resp,
               post w (viewport_request w url desktop_viewport) = Ok resp
               /\ raise_for_status resp = Ok tt
               /\ content resp = EmptyString.
Proof.
  destruct (capture_responsive_views_run w url)
    as (m & t & d & Hcap & _ & _ & Hd1 & Hd2 & Hd3).
  eexists. rewrite Hcap. split; [reflexivity|].
  intros dc dom a b.
  set (shots := [(py "mobile", VStr m); (py "tablet", VStr t);
                 (py "desktop", VStr d)]).
  assert (Hmain : main_screenshot_of shots = VStr d) by reflexivity.
  split.
  - intros Hin.
    apply fallback_only_without_desktop in Hin;
      [|apply browserless_not_invoke].
    destruct Hin as [_ Hfalse]. rewrite Hmain in Hfalse.
    destruct (post w (viewport_request w url desktop_viewport))
      as [resp|e] eqn:Hpost.
    + destruct (raise_for_status resp) as [[]|e] eqn:Hstatus.
      * exists resp. split; [reflexivity|]. split; [exact Hstatus|].
        apply b64encode_empty. rewrite <- (Hd3 resp eq_refl Hstatus).
        destruct d; [reflexivity | discriminate].
      * rewrite (Hd2 resp e eq_refl Hstatus) in Hfalse. discriminate.
    + rewrite (Hd1 e eq_refl) in Hfalse. discriminate.
  - intros (resp & Hpost & Hstatus & Hempty).
    assert (Hfalse : truthy (main_screenshot_of shots) = false).
    { rewrite Hmain, (Hd3 resp Hpost Hstatus), Hempty. reflexivity. }
    destruct (open_stream_inv w url dc shots a b) as (pre & Hpre & Hrun).
    rewrite (proj1 (stream_unfold w url dc dom shots a b)).
    destruct Hpre as [[_ Htrue] | [-> _]]; [congruence|].
    destruct Hrun as [[-> _] | (prompt & png & _ & -> & _)]; now left.
Qed.

(** X5: The generator sends at most two requests: the fallback screenshot,
    first, exactly when the desktop entry is missing or empty, and then at
    most one request to the model; with a desktop entry the image of that
    request is the entry itself. *)
Theorem X5_generator_sends_at_most_two_requests
    (w : World) (url : str) (dc dom : value) (shots : dict)
    (a b : option (list dict)) :
  let sent := fst (stream_clone_html_enhanced w url dc dom shots a b) in
  (truthy (main_screenshot_of shots) = true ->
   sent = []
   \/ exists prompt,
        sent = [chat_request w
                  (chat_payload url prompt (fmt w (main_screenshot_of shots)))])
  /\ (truthy (main_screenshot_of shots) = false ->
      sent = [screenshot_request w url a b 30]
      \/ exists prompt png,
           sent = [screenshot_request w url a b 30;
                   chat_request w (chat_payload url prompt png)])
  /\ (length sent <= 2)%nat.
Proof.
  intros sent. subst sent.
  rewrite (proj1 (stream_unfold w url dc dom shots a b)).
  destruct (open_stream_inv w url dc shots a b) as (pre & Hpre & Hrun).
  split; [|split].
  - intros Hmain.
    destruct Hpre as [[-> _] | [_ Hfalse]]; [|congruence].
    destruct Hrun as [[-> _] | (prompt & png & Hpng & -> & _)]; [now left|].
    right. exists prompt. now rewrite (Hpng Hmain).
  - intros Hmain.
    destruct Hpre as [[_ Htrue] | [-> _]]; [congruence|].
    destruct Hrun as [[-> _] | (prompt & png & _ & -> & _)]; [now left|].
    right. now exists prompt, png.
  - destruct Hpre as [[-> _] | [-> _]];
      destruct Hrun as [[-> _] | (prompt & png & _ & -> & _)]; simpl; lia.
Qed.

Lemma X5_generator_sends_at_most_two_requests_witness :
  fst (stream_on (model_answers 200 [line_A])) = []
  \/ exists prompt,
       fst (stream_on (model_answers 200 [line_A]))
       = [chat_request (model_answers 200 [line_A])
            (chat_payload site prompt (py "aGk="))].
Proof.
  exact (proj1 (X5_generator_sends_at_most_two_requests
                  (model_answers 200 [line_A]) site (VDict []) (VDict [])
                  shots None None)
               eq_refl).
Defined.

(** X6: When the design context is not a mapping (the service answered with
    a JSON list, string, number or null), the generator raises before any
    request to the model; with a desktop entry it sends nothing at all and
    raises [AttributeError]. *)
Theorem X6_design_context_must_be_a_mapping
    (w : World) (url : str) (dc dom : value) (shots : dict)
    (a b : option (list dict)) :
  (forall m, dc <> VDict m) ->
  (forall req,
      In req (fst (stream_clone_html_enhanced w url dc dom shots a b)) ->
      req_url req <> invoke_url)
  /\ (exists e,
         snd (stream_clone_html_enhanced w url dc dom shots a b) = Throw e)
  /\ (truthy (main_screenshot_of shots) = true ->
      stream_clone_html_enhanced w url dc dom shots a b
      = ([], Throw AttributeError)).
Proof.
  intros Hdc.
  assert (Hget : forall k v, get dc k v = Raise AttributeError).
  { intros k v. destruct dc; try reflexivity. now contradiction (Hdc d). }
  unfold stream_clone_html_enhanced, open_stream.
  fold (main_screenshot_of shots).
  destruct (truthy (main_screenshot_of shots)); cbn [negb].
  - rewrite Hget. io_step. cbn [gbind].
    split; [intros req []|]. split; [cbn [snd]; eauto | reflexivity].
  - rewrite grab_screenshot_run.
    destruct (post w (screenshot_request w url a b 30)) as [shot|e]; io_step.
    + destruct (raise_for_status shot) as [[]|e]; io_step.
      * rewrite Hget. io_step. cbn [gbind fst snd].
        split; [|split; [cbn [snd]; eauto | discriminate]].
        intros req [<- | []]. apply browserless_not_invoke.
      * cbn [gbind fst snd]. split; [|split; [cbn [snd]; eauto | discriminate]].
        intros req [<- | []]. apply browserless_not_invoke.
    + cbn [gbind fst snd]. split; [|split; [cbn [snd]; eauto | discriminate]].
      intros req [<- | []]. apply browserless_not_invoke.
Qed.

Lemma X6_design_context_must_be_a_mapping_witness :
  stream_clone_html_enhanced (model_answers 200 [line_A]) site
    (VList []) (VDict []) shots None None
  = ([], Throw AttributeError).
Proof.
  assert (H : forall m, VList [] <> VDict m) by discriminate.
  exact (proj2 (proj2 (X6_design_context_must_be_a_mapping
                         (model_answers 200 [line_A]) site
                         (VList []) (VDict []) shots None None H))
               eq_refl).
Defined.



(** X8: A non-empty line that is not valid UTF-8 raises, whether or not it
    is a data line; and a line that raises ends the generator with that
    exception: the increments of the lines before it have been yielded,
    nothing of what follows is, not even the closing tag. *)
Theorem X8_raising_line_ends_the_stream :
  (forall (raw : bytes) (e : exn),
      raw <> EmptyString -> decode raw = Raise e -> loop_body raw = Fail e)
  /\
  (forall (w : World) (url : str) (dc dom : value) (shots : dict)
          (a b : option (list dict)) (req : Request) (resp : Response)
          (pre : list bytes) (bad : bytes) (rest : list bytes) (e : exn),
      In req (fst (stream_clone_html_enhanced w url dc dom shots a b)) ->
      req_url req = invoke_url ->
      post w req = Ok resp ->
      status_code resp = 200 ->
      iter_lines resp = pre ++ bad :: rest ->
      Forall passes pre ->
      loop_body bad = Fail e ->
      yields (snd (stream_clone_html_enhanced w url dc dom shots a b))
      = flat_map emitted pre
      /\ outcome (snd (stream_clone_html_enhanced w url dc dom shots a b))
         = Some e).
Proof.
  split.
  - intros raw e Hraw Hdec. unfold loop_body.
    destruct raw; [congruence|]. now rewrite Hdec.
  - intros w url dc dom shots a b req resp pre bad rest e
           Hin Hurl Hpost Hstatus Hlines Hpre Hbad.
    rewrite (stream_body_on_200 w url dc dom shots a b req resp
               Hin Hurl Hpost Hstatus), Hlines.
    destruct (for_lines_fail pre bad rest (iter_lines_end resp) e Hpre Hbad)
      as [Hy Ho].
    rewrite (yields_gen_then_raise _ _ e Ho), outcome_gen_then, Ho, Hy.
    now split.
Qed.

Lemma X8_raising_line_ends_the_stream_witness :
  yields (snd (stream_on (model_answers 200
                            [line_A; line_empty_choices; line_B])))
  = [VStr (py "A")]
  /\ outcome (snd (stream_on (model_answers 200
                                [line_A; line_empty_choices; line_B])))
     = Some IndexError.
Proof.
  pose (w := model_answers 200 [line_A; line_empty_choices; line_B]).
  assert (Hin : In (default_chat_request w (py "aGk=")) (fst (stream_on w)))
    by (left; reflexivity).
  assert (Hpre : Forall passes [line_A]).
  { apply Forall_cons; [right; eexists; vm_compute; reflexivity|].
    apply Forall_nil. }
  assert (Hbad : loop_body line_empty_choices = Fail IndexError)
    by (vm_compute; reflexivity).
  exact (proj2 X8_raising_line_ends_the_stream
           w site (VDict []) (VDict []) shots None None
           (default_chat_request w (py "aGk="))
           (event_stream 200 [line_A; line_empty_choices; line_B] None)
           [line_A] line_empty_choices [line_B] IndexError
           Hin eq_refl eq_refl eq_refl eq_refl Hpre Hbad).
Defined.

(** X9: When the connection breaks after the last line (reading the lines
    raises), the generator yields the increments of the lines it has read
    and raises that exception without yielding the closing tag. *)
Theorem X9_broken_connection_ends_without_closing_tag
    (w : World) (url : str) (dc dom : value) (shots : dict)
    (a b : option (list dict)) (req : Request) (resp : Response) (e : exn) :
  In req (fst (stream_clone_html_enhanced w url dc dom shots a b)) ->
  req_url req = invoke_url ->
  post w req = Ok resp ->
  status_code resp = 200 ->
  Forall passes (iter_lines resp) ->
  iter_lines_end resp = Some e ->
  yields (snd (stream_clone_html_enhanced w url dc dom shots a b))
  = flat_map emitted (iter_lines resp)
  /\ outcome (snd (stream_clone_html_enhanced w url dc dom shots a b)) = Some e.
Proof.
  intros Hin Hurl Hpost Hstatus Hlines Hend.
  rewrite (stream_body_on_200 w url dc dom shots a b req resp Hin Hurl Hpost Hstatus).
  rewrite Hend.
  destruct (for_lines_broken (iter_lines resp) e Hlines) as [Hy Ho].
  rewrite (yields_gen_then_raise _ _ e Ho), outcome_gen_then, Ho, Hy.
  now split.
Qed.

Lemma X9_broken_connection_ends_without_closing_tag_witness :
  yields (snd (stream_on reset_world)) = [VStr (py "A")]
  /\ outcome (snd (stream_on reset_world))
     = Some (RequestException (py "connection reset")).
Proof.
  assert (Hin : In (default_chat_request reset_world (py "aGk="))
                   (fst (stream_on reset_world)))
    by (left; reflexivity).
  assert (Hpre : Forall passes [line_A]).
  { apply Forall_cons; [right; eexists; vm_compute; reflexivity|].
    apply Forall_nil. }
  exact (X9_broken_connection_ends_without_closing_tag
           reset_world site (VDict []) (VDict []) shots None None
           (default_chat_request reset_world (py "aGk="))
           (event_stream 200 [line_A]
              (Some (RequestException (py "connection reset"))))
           (RequestException (py "connection reset"))
           Hin eq_refl eq_refl eq_refl Hpre eq_refl).
Defined.

(** X10: [capture_responsive_views] sends exactly three requests, for the
    mobile, tablet and desktop viewports in this order, whatever the answers
    are; each payload has the url, the viewport and the full-page PNG
    options and nothing else. *)
Theorem X10_capture_sends_three_plain_requests (w : World) (url : str) :
  fst (capture_responsive_views w url)
  = [viewport_request w url mobile_viewport;
     viewport_request w url tablet_viewport;
     viewport_request w url desktop_viewport]
  /\ forall viewport,
       let payload := req_json (viewport_request w url viewport) in
       subscript payload (VStr (py "url")) = Ok (VStr url)
       /\ subscript payload (VStr (py "viewport")) = Ok viewport
       /\ subscript payload (VStr (py "options"))
          = Ok (VDict [(py "fullPage", VBool true);
                       (py "type", VStr (py "png"))])
       /\ len payload = Ok 3.
Proof.
  destruct (capture_responsive_views_run w url) as (m & t & d & Hrun & _).
  rewrite Hrun. split; [reflexivity|]. intros viewport. repeat split.
Qed.

(** X11: When the [data] list of a /content answer has an element that is
    not a mapping, [extract_dom_structure] returns the error mapping for
    [AttributeError], wherever the element is and whatever its selector
    would be; when all elements are mappings and a style element has a text
    that is not a string, it returns the error mapping for [TypeError]. *)
Theorem X11_one_malformed_element_spoils_the_dom_result
    (w : World) (url : str) (d : list (str * value)) (items : list value) :
  call_returns w (content_request w url) (VDict d) ->
  dict_get d (py "data") = Some (VList items) ->
  (forall item, In item items -> (forall m, item <> VDict m) ->
     snd (extract_dom_structure w url)
     = Ok (error_shaped (py "Failed to extract DOM: ") w AttributeError))
  /\ (forall item,
        Forall (fun x => exists m, x = VDict m) items ->
        In item items -> is_style_element item = true ->
        (forall s, raw_text item <> VStr s) ->
        snd (extract_dom_structure w url)
        = Ok (error_shaped (py "Failed to extract DOM: ") w TypeError)).
Proof.
  intros (resp & Hpost & Hstatus & Hjson) Hdata.
  assert (Hrun : snd (extract_dom_structure w url)
                 = Ok match dom_of_content (VDict d) with
                      | Raise e => error_shaped (py "Failed to extract DOM: ") w e
                      | Ok v => v
                      end).
  { rewrite extract_dom_structure_run. cbn [snd].
    now rewrite Hpost, Hstatus, Hjson. }
  assert (Hdom : dom_of_content (VDict d)
                 = (css_content <-? css_loop items [] ;;
                    css <-? join_values [NL] css_content ;;
                    Ok (VDict [(py "html", VDict d);
                               (py "extracted_css", VStr css)]))).
  { unfold dom_of_content. cbn [contains rbind].
    rewrite (key_has_value d (py "data") _ Hdata).
    cbn [subscript]. rewrite Hdata. reflexivity. }
  rewrite Hrun, Hdom. split.
  - intros item Hin Hitem.
    now rewrite (css_loop_non_mapping items item Hin Hitem []).
  - intros item Hall Hin Hstyle Htext.
    rewrite (css_loop_mappings items Hall []). cbn [rbind app].
    unfold join_values.
    rewrite (strings_of_non_string _ (raw_text item)); [reflexivity | | exact Htext].
    apply in_map. apply filter_In. now split.
Qed.

Lemma X11_one_malformed_element_spoils_the_dom_result_witness :
  snd (extract_dom_structure
         (world (Raise JSONDecodeError) (answers_json number_page)) site)
  = Ok (error_shaped (py "Failed to extract DOM: ")
          (world (Raise JSONDecodeError) (answers_json number_page))
          AttributeError).
Proof.
  pose (w := world (Raise JSONDecodeError) (answers_json number_page)).
  assert (Hcall : call_returns w (content_request w site) number_page).
  { eexists. split; [reflexivity|]. split; reflexivity. }
  apply (proj1 (X11_one_malformed_element_spoils_the_dom_result
                  w site [(py "data", VList [VInt 1])] [VInt 1]
                  Hcall eq_refl)
               (VInt 1)).
  - left. reflexivity.
  - discriminate.
Defined.

(** X12: /analyze never raises: it sends the five extraction requests, none
    of them to the model endpoint, and returns the mapping with the keys
    url, design_context, dom_structure and screenshots holding the three
    artifacts. *)
Theorem X12_analyze_website_never_calls_the_model (w : World) (url : str) :
  exists (dc dom : value) (shots : dict),
    snd (extract_design_context w url) = Ok dc
    /\ snd (extract_dom_structure w url) = Ok dom
    /\ snd (capture_responsive_views w url) = Ok shots
    /\ analyze_website w url
       = ([function_request w url; content_request w url;
           viewport_request w url mobile_viewport;
           viewport_request w url tablet_viewport;
           viewport_request w url desktop_viewport],
          Ok (VDict [(py "url", VStr url);
                     (py "design_context", dc);
                     (py "dom_structure", dom);
                     (py "screenshots", VDict shots)]))
    /\ forall req, In req (fst (analyze_website w url)) ->
                   req_url req <> invoke_url.
Proof.
  destruct (extraction_run w url)
    as (dc & dom & shots & H1 & H2 & H3 & E1 & E2 & E3).
  exists dc, dom, shots. repeat (split; [assumption|]).
  assert (Hrun : analyze_website w url
                 = ([function_request w url; content_request w url;
                     viewport_request w url mobile_viewport;
                     viewport_request w url tablet_viewport;
                     viewport_request w url desktop_viewport],
                    Ok (VDict [(py "url", VStr url);
                               (py "design_context", dc);
                               (py "dom_structure", dom);
                               (py "screenshots", VDict shots)]))).
  { unfold analyze_website. rewrite E1, E2, E3. reflexivity. }
  split; [exact Hrun|].
  rewrite Hrun. cbn [fst]. intros req Hin.
  repeat (destruct Hin as [<- | Hin]; [apply browserless_not_invoke|]).
  destruct Hin.
Qed.

(** X13: Filtering the directives twice is filtering them once; the filter
    keeps exactly the directives with a truthy value, in their order (the
    test for an empty directive adds nothing), changes nothing when every
    directive has one, and never turns a given list into no list. *)
Theorem X13_filter_tags_is_idempotent (tags : option (list dict)) :
  filter_tags (filter_tags tags) = filter_tags tags
  /\ (forall l, filter_tags tags = Some l ->
        exists given_tags,
          tags = Some given_tags
          /\ l = filter (fun tag => any (values tag)) given_tags)
  /\ (forall l, tags = Some l ->
        Forall (fun tag => any (values tag) = true) l ->
        filter_tags tags = tags)
  /\ (filter_tags tags = None <-> tags = None).
Proof.
  split; [|split; [|split]].
  - destruct tags as [[|tag l]|]; try reflexivity.
    change (filter_tags (Some (tag :: l)))
      with (Some (filter valid_tag (tag :: l))).
    destruct (filter valid_tag (tag :: l)) as [|x xs] eqn:Hf; [reflexivity|].
    change (filter_tags (Some (x :: xs)))
      with (Some (filter valid_tag (x :: xs))).
    now rewrite <- Hf, filter_twice.
  - intros l H. destruct tags as [[|tag given_tags]|]; try discriminate.
    + injection H as <-. now exists [].
    + injection H as <-. exists (tag :: given_tags). split; [reflexivity|].
      change (filter valid_tag (tag :: given_tags)
              = filter (fun t => any (values t)) (tag :: given_tags)).
      apply filter_ext. exact valid_tag_any.
  - intros l -> Hall. destruct l as [|tag l]; [reflexivity|].
    unfold filter_tags. f_equal.
    apply forallb_filter_id. apply forallb_forall. intros x Hx.
    rewrite valid_tag_any. revert x Hx. now apply Forall_forall.
  - destruct tags as [[|tag l]|]; split; intros H; try discriminate; reflexivity.
Qed.

(** X14: Whatever the body of /clone, no request it sends carries an empty
    or all-falsy directive: an [addScriptTag] or [addStyleTag] key of a
    payload holds a non-empty list of directives that are not empty and have
    a truthy value. *)
Theorem X14_clone_requests_carry_only_usable_directives
    (w : World) (url : str) (a b : option (list dict))
    (req : Request) (key : str) (v : value) :
  In req (fst (clone_site_enhanced w url a b)) ->
  key = py "addScriptTag" \/ key = py "addStyleTag" ->
  subscript (req_json req) (VStr key) = Ok v ->
  exists l, v = VList (map VDict l) /\ l <> [] /\ Forall usable l.
Proof.
  intros Hin Hkey Hv.
  rewrite clone_site_enhanced_full in Hin. cbn [fst] in Hin.
  destruct (try_body_full w url (filter_tags a) (filter_tags b))
    as (dc & dom & shots & _ & _ & _ & Hbody).
  rewrite Hbody in Hin. cbn [fst] in Hin.
  apply in_app_or in Hin. destruct Hin as [Hin | Hin].
  { exfalso.
    repeat (destruct Hin as [<- | Hin];
            [destruct Hkey as [-> | ->]; discriminate Hv|]).
    destruct Hin. }
  rewrite (proj1 (stream_unfold _ _ _ _ _ _ _)) in Hin.
  destruct (open_stream_inv w url dc shots
              (or_none (filter_tags a)) (or_none (filter_tags b)))
    as (pre & Hpre & Hrun).
  assert (Hshot :
    forall ta tb,
      (subscript (req_json (screenshot_request w url ta tb 30)) (VStr key) = Ok v) ->
      exists tags, (tags = ta \/ tags = tb) /\ given tags = true
                   /\ v = tags_value tags).
  { intros ta tb H.
    pose proof (screenshot_payload_keys w url ta tb 30) as (_ & _ & Hs & Ht & _).
    destruct Hkey as [-> | ->].
    - rewrite Hs in H. destruct (given ta) eqn:Hg; [|discriminate].
      injection H as <-. eauto.
    - rewrite Ht in H. destruct (given tb) eqn:Hg; [|discriminate].
      injection H as <-. eauto. }
  assert (Hdone :
    forall tags, (tags = or_none (filter_tags a) \/ tags = or_none (filter_tags b)) ->
                 given tags = true -> v = tags_value tags ->
                 exists l, v = VList (map VDict l) /\ l <> [] /\ Forall usable l).
  { intros tags Htags Hg ->.
    destruct tags as [l|]; [|discriminate]. exists l. split; [reflexivity|].
    destruct Htags as [H | H]; symmetry in H;
      apply clone_forwards_valid_tags in H; destruct H as (Hne & Hall & _);
      split; auto. }
  assert (Hchat : forall p, subscript (req_json (chat_request w p)) (VStr key) = Ok v ->
                            forall prompt png, p = chat_payload url prompt png -> False).
  { intros p H prompt png ->. destruct Hkey as [-> | ->]; discriminate H. }
  assert (Hin' : In req pre \/ exists prompt png,
                     req = chat_request w (chat_payload url prompt png)).
  { destruct Hrun as [[Hfst _] | (prompt & png & _ & Hfst & _)];
      rewrite Hfst in Hin; [now left|].
    apply in_app_or in Hin. destruct Hin as [Hin | [<- | []]]; eauto. }
  destruct Hin' as [Hp | (prompt & png & ->)].
  - destruct Hpre as [[-> _] | [-> _]]; [destruct Hp|].
    destruct Hp as [<- | []].
    destruct (Hshot _ _ Hv) as (tags & Htags & Hg & Hval). eauto.
  - exfalso. eapply Hchat; eauto.
Qed.

Lemma X14_clone_requests_carry_only_usable_directives_witness :
  exists l,
    VList [VDict [(py "url", VStr (py "https://cdn.example.org/a.js"))]]
    = VList (map VDict l)
    /\ l <> [] /\ Forall usable l.
Proof.
  apply (X14_clone_requests_carry_only_usable_directives
           blank_world site script_directive None
           (screenshot_request blank_world site script_directive None 30)
           (py "addScriptTag")).
  - do 5 right. left. reflexivity.
  - left. reflexivity.
  - reflexivity.
Defined.


(** X16: When the model endpoint answers with a status other than 200,
    /clone-complete fails with status 500 (not with the status of the model
    endpoint), the message naming the original failure, and /clone answers
    with the diagnostic comment as its only chunk. *)
Theorem X16_upstream_status_is_reported_not_relayed :
  (forall (w : World) (url : str) (a b : option (list dict))
          (req : Request) (resp : Response),
      In req (fst (clone_site_complete w url a b)) ->
      req_url req = invoke_url ->
      post w req = Ok resp ->
      status_code resp <> 200 ->
      snd (clone_site_complete w url a b)
      = Raise (HTTPException 500
                 (py "Failed to clone website: "
                  ++ str_exn w (HTTPException (status_code resp) (text resp)))))
  /\
  (forall (w : World) (url : str) (a b : option (list dict))
          (req : Request) (resp : Response),
      In req (fst (clone_site_enhanced w url a b)) ->
      req_url req = invoke_url ->
      post w req = Ok resp ->
      status_code resp <> 200 ->
      yields (snd (clone_site_enhanced w url a b))
      = [VStr (py "<!-- Error: "
               ++ str_exn w (HTTPException (status_code resp) (text resp))
               ++ py " -->")]
      /\ outcome (snd (clone_site_enhanced w url a b)) = None).
Proof.
  split.
  - intros w url a b req resp Hin Hurl Hpost Hstatus.
    destruct (clone_site_complete_run w url a b)
      as (dc & dom & shots & _ & _ & _ & Hrun).
    rewrite Hrun in *. cbn [fst snd] in *.
    apply in_app_or in Hin. destruct Hin as [Hin | Hin].
    { now apply extraction_requests_not_invoke in Hin. }
    rewrite (stream_raises_on_other_status w url dc dom shots a b req resp
               Hin Hurl Hpost Hstatus).
    reflexivity.
  - intros w url a b req resp Hin Hurl Hpost Hstatus.
    rewrite clone_site_enhanced_full in *. cbn [fst snd] in *.
    destruct (try_body_full w url (filter_tags a) (filter_tags b))
      as (dc & dom & shots & _ & _ & _ & Hrun).
    rewrite Hrun in *. cbn [fst snd] in *.
    apply in_app_or in Hin. destruct Hin as [Hin | Hin].
    { now apply extraction_requests_not_invoke in Hin. }
    rewrite (stream_raises_on_other_status w url dc dom shots _ _ req resp
               Hin Hurl Hpost Hstatus).
    split; reflexivity.
Qed.

Lemma X16_upstream_status_is_reported_not_relayed_witness :
  snd (clone_site_complete (model_answers 503 [line_A]) site None None)
  = Raise (HTTPException 500 (py "Failed to clone website: body")).
Proof.
  pose (w := model_answers 503 [line_A]).
  assert (Hin : In (default_chat_request w (py "Error: connection refused"))
                   (fst (clone_site_complete w site None None)))
    by (do 5 right; left; reflexivity).
  apply (proj1 X16_upstream_status_is_reported_not_relayed
           w site None None
           (default_chat_request w (py "Error: connection refused"))
           (event_stream 503 [line_A] None)
           Hin eq_refl eq_refl).
  discriminate.
Defined.

(** X17: /clone-complete with the filtered directives sends the same
    requests as /clone with the directives as given, and when it returns,
    its [html] is the concatenation of the chunks of /clone. *)
Theorem X17_clone_complete_is_clone_concatenated
    (w : World) (url : str) (a b : option (list dict)) :
  fst (clone_site_complete w url (filter_tags a) (filter_tags b))
  = fst (clone_site_enhanced w url a b)
  /\ forall v,
       snd (clone_site_complete w url (filter_tags a) (filter_tags b)) = Ok v ->
       exists parts : list str,
         yields (snd (clone_site_enhanced w url a b)) = map VStr parts
         /\ subscript v (VStr (py "html")) = Ok (VStr (concat parts)).
Proof.
  rewrite clone_site_enhanced_full. cbn [fst snd].
  destruct (clone_site_complete_run w url (filter_tags a) (filter_tags b))
    as (dc & dom & shots & H1 & H2 & H3 & Hrun).
  destruct (try_body_full w url (filter_tags a) (filter_tags b))
    as (dc' & dom' & shots' & H1' & H2' & H3' & Hbody).
  assert (dc' = dc) by congruence. assert (dom' = dom) by congruence.
  assert (shots' = shots) by congruence. subst dc' dom' shots'.
  rewrite stream_or_none in Hbody. rewrite Hrun, Hbody. cbn [fst snd].
  split; [reflexivity|].
  intros v Hv. unfold complete_result, drive in Hv.
  set (g := snd (stream_clone_html_enhanced w url dc dom shots
                   (filter_tags a) (filter_tags b))) in *.
  destruct (outcome g) eqn:Hout; [discriminate|].
  destruct (join_values [] (yields g)) as [html|] eqn:Hjoin; [|discriminate].
  destruct (analysis_summary dc) as [an|]; [|discriminate].
  injection Hv as <-.
  unfold join_values in Hjoin. rbind_inv Hjoin. injection Hjoin as <-.
  match goal with
  | Hss : strings_of (yields g) = Ok ?ss |- _ =>
      exists ss; split;
      [rewrite yields_gen_except, Hout, app_nil_r; now apply strings_of_inv
      | now rewrite join_empty_separator]
  end.
Qed.

(** X18: The generator yields a content that is not a string as it is; when
    it has yielded one, /clone-complete fails with status 500 for the
    [TypeError] of the join. *)
Theorem X18_non_string_increment_fails_complete_mode
    (w : World) (url : str) (a b : option (list dict)) :
  exists (dc dom : value) (shots : dict),
    snd (extract_design_context w url) = Ok dc
    /\ snd (extract_dom_structure w url) = Ok dom
    /\ snd (capture_responsive_views w url) = Ok shots
    /\ forall v,
         outcome (snd (stream_clone_html_enhanced w url dc dom shots a b)) = None ->
         In v (yields (snd (stream_clone_html_enhanced w url dc dom shots a b))) ->
         (forall s, v <> VStr s) ->
         snd (clone_site_complete w url a b) = Raise (clone_failure w TypeError).
Proof.
  destruct (clone_site_complete_run w url a b)
    as (dc & dom & shots & H1 & H2 & H3 & Hrun).
  exists dc, dom, shots. repeat (split; [assumption|]).
  intros v Hout Hin Hv. rewrite Hrun. cbn [snd].
  unfold complete_result, drive, join_values. rewrite Hout.
  now rewrite (strings_of_non_string _ v Hin Hv).
Qed.

Lemma X18_non_string_increment_fails_complete_mode_witness :
  snd (clone_site_complete (model_answers 200 [line_seven; line_DONE]) site
         None None)
  = Raise (clone_failure (model_answers 200 [line_seven; line_DONE])
                         TypeError).
Proof.
  destruct (X18_non_string_increment_fails_complete_mode
              (model_answers 200 [line_seven; line_DONE]) site None None)
    as (dc & dom & shots & Hdc & Hdom & Hshots & Hfail).
  vm_compute in Hdc, Hdom, Hshots.
  injection Hdc as <-. injection Hdom as <-. injection Hshots as <-.
  apply (Hfail (VInt 7)).
  - vm_compute. reflexivity.
  - left. vm_compute. reflexivity.
  - discriminate.
Defined.

(** X19: When the design context is a mapping without the keys colors,
    fonts, textContent and images (as the mapping of the extraction script
    and the error mapping are), the four counts of the analysis are zero. *)
Theorem X19_analysis_counts_are_zero_without_the_fields
    (w : World) (url : str) (a b : option (list dict))
    (d : list (str * value)) (v : value) :
  snd (extract_design_context w url) = Ok (VDict d) ->
  dict_get d (py "colors") = None ->
  dict_get d (py "fonts") = None ->
  dict_get d (py "textContent") = None ->
  dict_get d (py "images") = None ->
  snd (clone_site_complete w url a b) = Ok v ->
  subscript v (VStr (py "analysis"))
  = Ok (VDict [(py "colors_found", VInt 0); (py "fonts_found", VInt 0);
               (py "headings_count", VInt 0); (py "images_count", VInt 0)]).
Proof.
  intros Hdc Hc Hf Ht Hi Hv.
  destruct (clone_site_complete_run w url a b)
    as (dc & dom & shots & H1 & H2 & H3 & Hrun).
  assert (dc = VDict d) by congruence. subst dc.
  rewrite Hrun in Hv. cbn [snd] in Hv. unfold complete_result in Hv.
  destruct (drive _) as [parts|]; [|discriminate].
  destruct (join_values [] parts) as [html|]; [|discriminate].
  unfold analysis_summary, get in Hv. rewrite Hc, Hf, Ht, Hi in Hv.
  cbn in Hv. injection Hv as <-. reflexivity.
Qed.

Lemma X19_analysis_counts_are_zero_without_the_fields_witness :
  exists v,
    snd (clone_site_complete (model_answers 200 [line_A; line_DONE]) site
           None None) = Ok v
    /\ subscript v (VStr (py "analysis"))
       = Ok (VDict [(py "colors_found", VInt 0); (py "fonts_found", VInt 0);
                    (py "headings_count", VInt 0); (py "images_count", VInt 0)]).
Proof.
  destruct (snd (clone_site_complete (model_answers 200 [line_A; line_DONE])
                  site None None)) as [v|e] eqn:Hv;
    [|vm_compute in Hv; discriminate Hv].
  exists v. split; [reflexivity|].
  apply (X19_analysis_counts_are_zero_without_the_fields
           (model_answers 200 [line_A; line_DONE]) site None None
           [(py "error",
             VStr (py "Failed to extract design context: connection refused"))]
           v).
  - reflexivity.
  - reflexivity.
  - reflexivity.
  - reflexivity.
  - reflexivity.
  - exact Hv.
Defined.

(** X20: When every request to the scraping service raises, both modes still
    send the five extraction requests and then call the model, with the
    default prompt (title Untitled, zero elements, no viewport) and the
    error text of the desktop capture in the place of the image; no fallback
    screenshot is asked for. *)
Theorem X20_model_is_called_when_the_scraping_service_is_down
    (w : World) (url : str) (a b : option (list dict)) :
  (forall req, req_url req <> invoke_url -> exists e, post w req = Raise e) ->
  exists e,
    post w (viewport_request w url desktop_viewport) = Raise e
    /\ fst (clone_site_complete w url a b)
       = extraction_requests w url
         ++ [chat_request w
               (chat_payload url
                  (system_prompt w (VStr (py "Untitled")) 0 VNone VNone)
                  (py "Error: " ++ str_exn w e))]
    /\ fst (clone_site_enhanced w url a b)
       = fst (clone_site_complete w url a b).
Proof.
  intros Hdown.
  destruct (Hdown (function_request w url) (browserless_not_invoke _))
    as [ef Hf].
  destruct (Hdown (viewport_request w url desktop_viewport)
                  (browserless_not_invoke _)) as [e He].
  exists e. split; [exact He|].
  destruct (clone_site_complete_run w url a b)
    as (dc & dom & shots & H1 & H2 & H3 & Hrun).
  destruct (try_body_full w url (filter_tags a) (filter_tags b))
    as (dc' & dom' & shots' & H1' & H2' & H3' & Hbody).
  assert (dc' = dc) by congruence. assert (dom' = dom) by congruence.
  assert (shots' = shots) by congruence. subst dc' dom' shots'.
  rewrite extract_design_context_run, Hf in H1. cbn [snd] in H1.
  injection H1 as <-.
  destruct (capture_responsive_views_run w url)
    as (m & t & dk & Hcap & _ & _ & Hd).
  rewrite Hcap in H3. cbn [snd] in H3. injection H3 as <-.
  destruct Hd as (Hd & _). rewrite (Hd e He) in *.
  assert (Hlog : forall x y,
             fst (stream_clone_html_enhanced w url
                    (error_shaped (py "Failed to extract design context: ") w ef)
                    dom
                    [(py "mobile", VStr m); (py "tablet", VStr t);
                     (py "desktop", VStr (py "Error: " ++ str_exn w e))] x y)
             = [chat_request w
                  (chat_payload url
                     (system_prompt w (VStr (py "Untitled")) 0 VNone VNone)
                     (py "Error: " ++ str_exn w e))]).
  { intros x y. rewrite (proj1 (stream_unfold _ _ _ _ _ _ _)).
    unfold error_shaped. rewrite open_stream_defaults; reflexivity. }
  rewrite clone_site_enhanced_full, Hbody, Hrun. cbn [fst].
  now rewrite !Hlog.
Qed.

Lemma X20_model_is_called_when_the_scraping_service_is_down_witness :
  exists e,
    post (model_answers 200 [line_A])
         (viewport_request (model_answers 200 [line_A]) site desktop_viewport)
    = Raise e
    /\ fst (clone_site_complete (model_answers 200 [line_A]) site None None)
       = extraction_requests (model_answers 200 [line_A]) site
         ++ [default_chat_request (model_answers 200 [line_A])
               (py "Error: " ++ str_exn (model_answers 200 [line_A]) e)]
    /\ fst (clone_site_enhanced (model_answers 200 [line_A]) site None None)
       = fst (clone_site_complete (model_answers 200 [line_A]) site None None).
Proof.
  apply X20_model_is_called_when_the_scraping_service_is_down.
  intros req Hurl. exists (RequestException (py "connection refused")).
  cbn [post model_answers world].
  destruct (str_eqb (req_url req) invoke_url) eqn:Heq; [|reflexivity].
  apply str_eqb_true in Heq. contradiction.
Defined.

(** X21: Every request of /analyze, /clone and /clone-complete is either a
    request to the scraping service (token in the query, timeout 30, not
    streamed, without the Authorization header) or the request to the model
    endpoint (streamed, without timeout, with the key as bearer credential). *)
Theorem X21_every_request_is_bounded_or_streamed
    (w : World) (url : str) (a b : option (list dict)) (req : Request) :
  In req (fst (analyze_website w url))
  \/ In req (fst (clone_site_enhanced w url a b))
  \/ In req (fst (clone_site_complete w url a b)) ->
  scraping_call w req \/ model_call w req.
Proof.
  intros [Hin | [Hin | Hin]].
  - left. apply (extraction_requests_kinds w url).
    destruct (extraction_run w url)
      as (dc & dom & shots & _ & _ & _ & E1 & E2 & E3).
    unfold analyze_website in Hin. rewrite E1, E2, E3 in Hin. exact Hin.
  - rewrite clone_site_enhanced_full in Hin. cbn [fst] in Hin.
    destruct (try_body_full w url (filter_tags a) (filter_tags b))
      as (dc & dom & shots & _ & _ & _ & Hbody).
    rewrite Hbody in Hin. cbn [fst] in Hin.
    apply in_app_or in Hin. destruct Hin as [Hin | Hin].
    + left. now apply (extraction_requests_kinds w url).
    + now apply stream_requests_kinds in Hin.
  - destruct (clone_site_complete_run w url a b)
      as (dc & dom & shots & _ & _ & _ & Hrun).
    rewrite Hrun in Hin. cbn [fst] in Hin.
    apply in_app_or in Hin. destruct Hin as [Hin | Hin].
    + left. now apply (extraction_requests_kinds w url).
    + now apply stream_requests_kinds in Hin.
Qed.

Lemma X21_every_request_is_bounded_or_streamed_witness :
  scraping_call blank_world (function_request blank_world site)
  \/ model_call blank_world (function_request blank_world site).
Proof.
  apply (X21_every_request_is_bounded_or_streamed
           blank_world site None None).
  left. left. reflexivity.
Defined.
